(** * The translation session of [frontend/src/App.js]

    A shallow embedding of the React component [App]: its ten state
    cells, the event handlers that write them, and the event loop that
    interleaves user events with the settlement of pending [fetch]
    calls.  The theorems at the end relate the handlers to the
    session state machine of the specification. *)

From Stdlib Require Import List Bool NArith ZArith Strings.String Strings.Ascii Lia.
Import ListNotations.

Set Implicit Arguments.

(** ** JavaScript strings *)

Module JsString.

(** A JavaScript string is a sequence of UTF-16 code units; [length]
    counts code units. *)
Definition jsstring := list N.

Definition length (s : jsstring) : Z := Z.of_nat (List.length s).

(** The code units that [String.prototype.trim] strips: ECMAScript
    WhiteSpace and LineTerminator. *)
Definition isWhiteSpace (c : N) : bool :=
  ((9 <=? c) && (c <=? 13)                       (* TAB LF VT FF CR *)
  || (c =? 32) || (c =? 160)                     (* SP, NBSP *)
  || (c =? 5760)                                 (* U+1680 *)
  || ((8192 <=? c) && (c <=? 8202))              (* U+2000 .. U+200A *)
  || (c =? 8232) || (c =? 8233)                  (* LS, PS *)
  || (c =? 8239) || (c =? 8287)                  (* U+202F, U+205F *)
  || (c =? 12288) || (c =? 65279))%N.            (* U+3000, BOM *)

Fixpoint trimStart (s : jsstring) : jsstring :=
  match s with
  | c :: s' => if isWhiteSpace c then trimStart s' else s
  | [] => []
  end.

Definition trimEnd (s : jsstring) : jsstring := rev (trimStart (rev s)).

Definition trim (s : jsstring) : jsstring := trimEnd (trimStart s).

(** ToBoolean on a string: only the empty string is falsy. *)
Definition truthy (s : jsstring) : bool :=
  match s with [] => false | _ :: _ => true end.

(** [===] on two strings. *)
Fixpoint eqb (a b : jsstring) : bool :=
  match a, b with
  | [], [] => true
  | x :: a', y :: b' => (x =? y)%N && eqb a' b'
  | _, _ => false
  end.

(** [a || b] on strings. *)
Definition or_else (a b : jsstring) : jsstring := if truthy a then a else b.

(** Literals.  A literal of this file is written as a Rocq string, that
    is as UTF-8 bytes; [lit] decodes it to code units (sequences of one
    to three bytes, which covers the Basic Multilingual Plane). *)
Definition byte (a : ascii) : N := N_of_ascii a.

Fixpoint decode (fuel : nat) (bs : list N) : jsstring :=
  match fuel with
  | O => []
  | S fuel =>
      match bs with
      | [] => []
      | b :: r =>
          if (b <? 128)%N then b :: decode fuel r
          else if (b <? 224)%N then
            match r with
            | b1 :: r1 =>
                N.lor (N.shiftl (N.land b 31) 6) (N.land b1 63) :: decode fuel r1
            | [] => [b]
            end
          else
            match r with
            | b1 :: b2 :: r2 =>
                N.lor (N.lor (N.shiftl (N.land b 15) 12)
                             (N.shiftl (N.land b1 63) 6))
                      (N.land b2 63) :: decode fuel r2
            | _ => b :: r
            end
      end
  end.

Definition lit (s : string) : jsstring :=
  let bs := map byte (list_ascii_of_string s) in
  decode (List.length bs) bs.

End JsString.

Import JsString.

Arguments lit : simpl never.

(** ** Data model *)

(** An entry of [translation.alternatives]. *)
Record Alternative := {
  alt_translation : jsstring;
  context : jsstring;
  explanation : jsstring
}.

(** The object returned by [POST /api/translate] and listed by
    [GET /api/history]; the component reads these properties of it. *)
Record TranslationData := {
  id : jsstring;
  text : jsstring;
  from_lang : jsstring;
  to_lang : jsstring;
  main_translation : jsstring;
  alternatives : list Alternative;
  timestamp : jsstring
}.

(** The [useState] cells of [App], under the names of the source. *)
Record State := {
  sourceText : jsstring;
  translation : option TranslationData;      (* null | object *)
  fromLang : jsstring;
  toLang : jsstring;
  languages : list (jsstring * jsstring);    (* code -> display name *)
  loading : bool;
  history : list TranslationData;
  showHistory : bool;
  selectedAlternative : jsstring;
  error : jsstring
}.

(** The initial values passed to [useState]. *)
Definition initialState : State := {|
  sourceText := [];
  translation := None;
  fromLang := lit "tr";
  toLang := lit "en";
  languages := [];
  loading := false;
  history := [];
  showHistory := false;
  selectedAlternative := [];
  error := []
|}.

(** The state setters.  Every call in the source passes a value, never
    an updater function, so a setter overwrites its own cell and
    nothing else. *)
Definition setSourceText (v : jsstring) (s : State) : State :=
  {| sourceText := v; translation := translation s; fromLang := fromLang s;
     toLang := toLang s; languages := languages s; loading := loading s;
     history := history s; showHistory := showHistory s;
     selectedAlternative := selectedAlternative s; error := error s |}.

Definition setTranslation (v : option TranslationData) (s : State) : State :=
  {| sourceText := sourceText s; translation := v; fromLang := fromLang s;
     toLang := toLang s; languages := languages s; loading := loading s;
     history := history s; showHistory := showHistory s;
     selectedAlternative := selectedAlternative s; error := error s |}.

Definition setFromLang (v : jsstring) (s : State) : State :=
  {| sourceText := sourceText s; translation := translation s; fromLang := v;
     toLang := toLang s; languages := languages s; loading := loading s;
     history := history s; showHistory := showHistory s;
     selectedAlternative := selectedAlternative s; error := error s |}.

Definition setToLang (v : jsstring) (s : State) : State :=
  {| sourceText := sourceText s; translation := translation s; fromLang := fromLang s;
     toLang := v; languages := languages s; loading := loading s;
     history := history s; showHistory := showHistory s;
     selectedAlternative := selectedAlternative s; error := error s |}.

Definition setLanguages (v : list (jsstring * jsstring)) (s : State) : State :=
  {| sourceText := sourceText s; translation := translation s; fromLang := fromLang s;
     toLang := toLang s; languages := v; loading := loading s;
     history := history s; showHistory := showHistory s;
     selectedAlternative := selectedAlternative s; error := error s |}.

Definition setLoading (v : bool) (s : State) : State :=
  {| sourceText := sourceText s; translation := translation s; fromLang := fromLang s;
     toLang := toLang s; languages := languages s; loading := v;
     history := history s; showHistory := showHistory s;
     selectedAlternative := selectedAlternative s; error := error s |}.

Definition setHistory (v : list TranslationData) (s : State) : State :=
  {| sourceText := sourceText s; translation := translation s; fromLang := fromLang s;
     toLang := toLang s; languages := languages s; loading := loading s;
     history := v; showHistory := showHistory s;
     selectedAlternative := selectedAlternative s; error := error s |}.

Definition setShowHistory (v : bool) (s : State) : State :=
  {| sourceText := sourceText s; translation := translation s; fromLang := fromLang s;
     toLang := toLang s; languages := languages s; loading := loading s;
     history := history s; showHistory := v;
     selectedAlternative := selectedAlternative s; error := error s |}.

Definition setSelectedAlternative (v : jsstring) (s : State) : State :=
  {| sourceText := sourceText s; translation := translation s; fromLang := fromLang s;
     toLang := toLang s; languages := languages s; loading := loading s;
     history := history s; showHistory := showHistory s;
     selectedAlternative := v; error := error s |}.

Definition setError (v : jsstring) (s : State) : State :=
  {| sourceText := sourceText s; translation := translation s; fromLang := fromLang s;
     toLang := toLang s; languages := languages s; loading := loading s;
     history := history s; showHistory := showHistory s;
     selectedAlternative := selectedAlternative s; error := v |}.

(** ** The network *)

(** The four calls of the component to [BACKEND_URL]. *)
Inductive Request :=
| GET_languages
| GET_history
| POST_translate (text from_lang to_lang : jsstring)
| DELETE_history.

(** [await response.json()] either rejects, with an error carrying a
    message, or yields the parsed body. *)
Inductive JsonResult (A : Type) :=
| JsonRejects (message : jsstring)
| JsonValue (value : A).

Arguments JsonRejects {A} message.
Arguments JsonValue {A} value.

(** [await fetch(...)] either rejects (the transport failed) or
    resolves with a response that has an [ok] flag and a body. *)
Inductive FetchResult (A : Type) :=
| Rejects (message : jsstring)
| Resolves (ok : bool) (json : JsonResult A).

Arguments Rejects {A} message.
Arguments Resolves {A} ok json.

(** The bodies, by the properties the component reads from them. *)
Record LanguagesBody := { body_languages : list (jsstring * jsstring) }.
Record HistoryBody := { translations : option (list TranslationData) }.
Record ErrorBody := { detail : option jsstring }.

(** For [POST /api/translate] the body read depends on [response.ok]:
    the error body when it is false, the translation when it is true. *)
Inductive TranslateResult :=
| TranslateRejects (message : jsstring)
| TranslateNotOk (errorData : JsonResult ErrorBody)
| TranslateOk (data : JsonResult TranslationData).

(** [DELETE /api/history]: the response is awaited and never read. *)
Inductive DeleteResult :=
| DeleteRejects (message : jsstring)
| DeleteResolves (ok : bool).

(** ** Handlers as processes

    A handler runs synchronously up to an [await] of a network call
    and resumes when that call settles.  [Call p k] is a call [p()]
    of an async function whose promise is not awaited: [p] runs up to
    its first [await], then [k] goes on. *)
Inductive Proc :=
| Return
| SetState (set : State -> State) (k : Proc)
| ConsoleError (k : Proc)
| ClipboardWrite (text : jsstring) (k : Proc)
| Call (p : Proc) (k : Proc)
| AwaitLanguages (k : FetchResult LanguagesBody -> Proc)
| AwaitHistory (k : FetchResult HistoryBody -> Proc)
| AwaitTranslate (text from_lang to_lang : jsstring) (k : TranslateResult -> Proc)
| AwaitDelete (k : DeleteResult -> Proc).

(** The messages of the component. *)
Definition msg_empty_text : jsstring := lit "Lütfen çevrilecek metni girin".
Definition msg_same_language : jsstring := lit "Kaynak ve hedef dil aynı olamaz".
Definition msg_too_long : jsstring := lit "Metin çok uzun (maksimum 5000 karakter)".
Definition msg_translate_failed : jsstring := lit "Çeviri başarısız".
Definition msg_languages_failed : jsstring := lit "Dil listesi yüklenirken hata oluştu".

Definition fetchLanguages : Proc :=
  AwaitLanguages (fun r =>
    match r with
    | Resolves _ (JsonValue data) =>
        SetState (setLanguages (body_languages data)) Return
    | Resolves _ (JsonRejects _) | Rejects _ =>
        (* catch *)
        ConsoleError (SetState (setError msg_languages_failed) Return)
    end).

Definition fetchHistory : Proc :=
  AwaitHistory (fun r =>
    match r with
    | Resolves _ (JsonValue data) =>
        (* data.translations || [] *)
        SetState (setHistory (match translations data with
                              | Some l => l
                              | None => []
                              end)) Return
    | Resolves _ (JsonRejects _) | Rejects _ =>
        (* catch *)
        ConsoleError Return
    end).

(** [handleTranslate] reads [sourceText], [fromLang] and [toLang] from
    the render it was created in, here [s]. *)
Definition handleTranslate (s : State) : Proc :=
  if negb (truthy (trim (sourceText s))) then
    SetState (setError msg_empty_text) Return
  else if JsString.eqb (fromLang s) (toLang s) then
    SetState (setError msg_same_language) Return
  else if (5000 <? JsString.length (sourceText s))%Z then
    SetState (setError msg_too_long) Return
  else
    SetState (setLoading true)
   (SetState (setError [])
   (SetState (setTranslation None)
   (AwaitTranslate (sourceText s) (fromLang s) (toLang s) (fun r =>
      let finally := SetState (setLoading false) Return in
      let catch (message : jsstring) := SetState (setError message) finally in
      match r with
      | TranslateRejects message => catch message
      | TranslateNotOk (JsonRejects message) => catch message
      | TranslateNotOk (JsonValue errorData) =>
          (* throw new Error(errorData.detail || 'Çeviri başarısız') *)
          catch (match detail errorData with
                 | Some d => or_else d msg_translate_failed
                 | None => msg_translate_failed
                 end)
      | TranslateOk (JsonRejects message) => catch message
      | TranslateOk (JsonValue data) =>
          SetState (setTranslation (Some data))
         (SetState (setSelectedAlternative (main_translation data))
         (Call fetchHistory
          finally))
      end)))).

(** [swapLanguages] reads [fromLang], [toLang], [translation] and
    [selectedAlternative] from the render it was created in. *)
Definition swapLanguages (s : State) : Proc :=
  let tempLang := fromLang s in
  SetState (setFromLang (toLang s))
 (SetState (setToLang tempLang)
 (match translation s with
  | Some _ =>
      SetState (setSourceText (selectedAlternative s))
     (SetState (setTranslation None)
     (SetState (setSelectedAlternative [])
      Return))
  | None => Return
  end)).

Definition clearHistory : Proc :=
  AwaitDelete (fun r =>
    match r with
    | DeleteResolves _ => SetState (setHistory []) Return
    | DeleteRejects _ => (* catch *) ConsoleError Return
    end).

Definition loadHistoryItem (item : TranslationData) : Proc :=
  SetState (setSourceText (text item))
 (SetState (setFromLang (from_lang item))
 (SetState (setToLang (to_lang item))
 (SetState (setTranslation (Some item))
 (SetState (setSelectedAlternative (main_translation item))
 (SetState (setShowHistory false)
  Return))))).

Definition copyToClipboard (text : jsstring) : Proc :=
  ClipboardWrite text Return.

Record KeyboardEvent := { ctrlKey : bool; metaKey : bool; key : jsstring }.

(** The [keydown] listener.  Its effect is re-run whenever [sourceText],
    [fromLang] or [toLang] change, which are the cells [handleTranslate]
    reads, so the listener always sees their current values. *)
Definition handleKeyPress (s : State) (e : KeyboardEvent) : Proc :=
  if (ctrlKey e || metaKey e) && JsString.eqb (key e) (lit "Enter") then
    Call (handleTranslate s) Return
  else Return.

(** ** The event loop *)

(** A call in flight, with the rest of the handler that awaits it. *)
Inductive Pending :=
| PendingLanguages (k : FetchResult LanguagesBody -> Proc)
| PendingHistory (k : FetchResult HistoryBody -> Proc)
| PendingTranslate (text from_lang to_lang : jsstring) (k : TranslateResult -> Proc)
| PendingDelete (k : DeleteResult -> Proc).

Definition request_of (p : Pending) : Request :=
  match p with
  | PendingLanguages _ => GET_languages
  | PendingHistory _ => GET_history
  | PendingTranslate t f o _ => POST_translate t f o
  | PendingDelete _ => DELETE_history
  end.

(** The component between two events: its state, the calls in flight
    (oldest first) and every request sent so far (oldest first). *)
Record Config := {
  state : State;
  inflight : list Pending;
  sent : list Request
}.

Definition initialConfig : Config :=
  {| state := initialState; inflight := []; sent := [] |}.

Definition update (set : State -> State) (c : Config) : Config :=
  {| state := set (state c); inflight := inflight c; sent := sent c |}.

Definition send (p : Pending) (c : Config) : Config :=
  {| state := state c; inflight := inflight c ++ [p];
     sent := sent c ++ [request_of p] |}.

(** Runs a process until it returns or waits for the network. *)
Fixpoint exec (p : Proc) (c : Config) : Config :=
  match p with
  | Return => c
  | SetState set k => exec k (update set c)
  | ConsoleError k => exec k c
  | ClipboardWrite _ k => exec k c
  | Call p k => exec k (exec p c)
  | AwaitLanguages k => send (PendingLanguages k) c
  | AwaitHistory k => send (PendingHistory k) c
  | AwaitTranslate t f o k => send (PendingTranslate t f o k) c
  | AwaitDelete k => send (PendingDelete k) c
  end.

(** What the network answers to a call. *)
Inductive Response :=
| LanguagesResponse (r : FetchResult LanguagesBody)
| HistoryResponse (r : FetchResult HistoryBody)
| TranslateResponse (r : TranslateResult)
| DeleteResponse (r : DeleteResult).

(** The rest of the handler once its call settles; a response of
    another call's kind is not an answer to this one. *)
Definition resume (p : Pending) (r : Response) : option Proc :=
  match p, r with
  | PendingLanguages k, LanguagesResponse r => Some (k r)
  | PendingHistory k, HistoryResponse r => Some (k r)
  | PendingTranslate _ _ _ k, TranslateResponse r => Some (k r)
  | PendingDelete k, DeleteResponse r => Some (k r)
  | _, _ => None
  end.

Fixpoint remove_nth {A : Type} (n : nat) (l : list A) : list A :=
  match n, l with
  | _, [] => []
  | O, _ :: l' => l'
  | S n', x :: l' => x :: remove_nth n' l'
  end.

(** The [n]-th call in flight settles with [r]. *)
Definition settle (n : nat) (r : Response) (c : Config) : Config :=
  match nth_error (inflight c) n with
  | Some p =>
      match resume p r with
      | Some k =>
          exec k {| state := state c; inflight := remove_nth n (inflight c);
                    sent := sent c |}
      | None => c
      end
  | None => c
  end.

(** The translate button: [disabled={loading || !sourceText.trim()}]. *)
Definition translateButton_disabled (s : State) : bool :=
  loading s || negb (truthy (trim (sourceText s))).

(** What the user and the network can do to the component. *)
Inductive Event :=
| Mount                                      (* the mount effect *)
| ChangeSourceText (value : jsstring)        (* textarea onChange *)
| ChangeFromLang (value : jsstring)          (* first select onChange *)
| ChangeToLang (value : jsstring)            (* second select onChange *)
| ClickSwap
| ClickTranslate
| KeyDown (e : KeyboardEvent)
| ClickAlternative (translation : jsstring)  (* an alternative card *)
| ClickCopy (text : jsstring)
| ClickToggleHistory
| ClickClearHistory
| ClickHistoryItem (item : TranslationData)
| Settle (n : nat) (r : Response).

(** The handler bound to a user event in the render of state [s]. *)
Definition handler (s : State) (e : Event) : Proc :=
  match e with
  | Mount => Call fetchLanguages (Call fetchHistory Return)
  | ChangeSourceText v => SetState (setSourceText v) Return
  | ChangeFromLang v => SetState (setFromLang v) Return
  | ChangeToLang v => SetState (setToLang v) Return
  | ClickSwap => swapLanguages s
  | ClickTranslate =>
      if translateButton_disabled s then Return else handleTranslate s
  | KeyDown e => handleKeyPress s e
  | ClickAlternative v => SetState (setSelectedAlternative v) Return
  | ClickCopy v => copyToClipboard v
  | ClickToggleHistory => SetState (setShowHistory (negb (showHistory s))) Return
  | ClickClearHistory => clearHistory
  | ClickHistoryItem item => loadHistoryItem item
  | Settle _ _ => Return
  end.

Definition step (c : Config) (e : Event) : Config :=
  match e with
  | Settle n r => settle n r c
  | _ => exec (handler (state c) e) c
  end.

Definition run (c : Config) (es : list Event) : Config := fold_left step es c.

(** ** The phase of the session

    The component has no phase cell; the phase is read off the cells
    the way the render reads them: while [loading] the spinner replaces
    the output and the button is disabled; otherwise a non-empty
    [error] shows the error banner; otherwise a non-null [translation]
    is the result on display. *)
Inductive Phase := Idle | Loading | Result | Error.

Definition phase (s : State) : Phase :=
  if loading s then Loading
  else if truthy (error s) then Error
  else match translation s with
       | Some _ => Result
       | None => Idle
       end.

(** The translation requests in flight. *)
Definition is_translate (p : Pending) : bool :=
  match p with PendingTranslate _ _ _ _ => true | _ => false end.

Definition translations_inflight (c : Config) : nat :=
  List.length (filter is_translate (inflight c)).

Definition is_translate_request (r : Request) : bool :=
  match r with POST_translate _ _ _ => true | _ => false end.

(** ** Sample data: the scenario of the specification *)

Definition merhaba : jsstring := lit "merhaba".

Definition hello : TranslationData := {|
  id := lit "42";
  text := merhaba;
  from_lang := lit "tr";
  to_lang := lit "en";
  main_translation := lit "hello";
  alternatives :=
    [ {| alt_translation := lit "hi"; context := lit "informal";
         explanation := lit "casual greeting" |} ];
  timestamp := lit "2025-01-01T00:00:00"
|}.

Definition ctrlEnter : KeyboardEvent :=
  {| ctrlKey := true; metaKey := false; key := lit "Enter" |}.

Definition failedToFetch : jsstring := lit "Failed to fetch".

(** A text of [n] letters. *)
Definition letters (n : N) : jsstring := N.iter n (cons 97%N) [].

(** The scenario of the specification: "merhaba" translated to
    "hello".  The refresh of the history is still in flight. *)
Definition afterHello : Config :=
  run initialConfig
    [ ChangeSourceText merhaba; ClickTranslate;
      Settle 0 (TranslateResponse (TranslateOk (JsonValue hello))) ].

(** The state of the scenario after a successful translation of
    "merhaba", with the text then blanked by the user. *)
Definition resultThenBlank : Config :=
  run initialConfig
    [ ChangeSourceText merhaba; ClickTranslate;
      Settle 0 (TranslateResponse (TranslateOk (JsonValue hello)));
      ChangeSourceText [] ].

(** The result on display with the text blanked and a submission
    attempted by Ctrl+Enter: the validation message shows and the
    translation stays stored. *)
Definition resultWithError : Config :=
  step resultThenBlank (KeyDown ctrlEnter).

(** The component after mount, with one record in the history. *)
Definition withHistory : Config :=
  run initialConfig
    [ Mount;
      Settle 1 (HistoryResponse
                  (Resolves true (JsonValue {| translations := Some [hello] |})));
      Settle 0 (LanguagesResponse
                  (Resolves true (JsonValue {| body_languages :=
                     [ (lit "tr", lit "Türkçe"); (lit "en", lit "English") ] |}))) ].

(** ** Vocabulary of the claims *)

(** Empty or whitespace-only. *)
Definition blank (t : jsstring) : Prop :=
  Forall (fun c => isWhiteSpace c = true) t.

(** The three ways a submission can fail validation. *)
Definition invalid (s : State) : Prop :=
  blank (sourceText s)
  \/ fromLang s = toLang s
  \/ (5000 < JsString.length (sourceText s))%Z.

Definition valid (s : State) : Prop :=
  ~ blank (sourceText s)
  /\ fromLang s <> toLang s
  /\ (JsString.length (sourceText s) <= 5000)%Z.

Inductive ValidationError := EmptyText | SameLanguage | TooLong.

Definition validation_message (v : ValidationError) : jsstring :=
  match v with
  | EmptyText => msg_empty_text
  | SameLanguage => msg_same_language
  | TooLong => msg_too_long
  end.

(** The ways the remote call fails, with the message each one carries:
    the transport's or the parser's own message when [fetch] or
    [json()] rejects, the service's [detail] when the response is not
    ok and has one, the fallback when it has none. *)
Inductive remote_failure : TranslateResult -> jsstring -> Prop :=
| failure_transport m :
    remote_failure (TranslateRejects m) m
| failure_service d :
    d <> [] ->
    remote_failure (TranslateNotOk (JsonValue {| detail := Some d |})) d
| failure_service_empty :
    remote_failure (TranslateNotOk (JsonValue {| detail := Some [] |}))
                   msg_translate_failed
| failure_service_silent :
    remote_failure (TranslateNotOk (JsonValue {| detail := None |}))
                   msg_translate_failed
| failure_error_body m :
    remote_failure (TranslateNotOk (JsonRejects m)) m
| failure_body m :
    remote_failure (TranslateOk (JsonRejects m)) m.

(** ** What the render shows *)

(** The output pane:
    [loading ? spinner : selectedAlternative ? result : placeholder]. *)
Inductive OutputPane :=
| Spinner
| Output (shown : jsstring)
| Placeholder.

Definition outputPane (s : State) : OutputPane :=
  if loading s then Spinner
  else if truthy (selectedAlternative s) then Output (selectedAlternative s)
  else Placeholder.

(** The error banner: [error && ...]. *)
Definition errorBanner (s : State) : option jsstring :=
  if truthy (error s) then Some (error s) else None.

(** The panel of alternative cards:
    [translation && translation.alternatives
     && translation.alternatives.length > 0]; an array is truthy. *)
Definition alternativesPanel (s : State) : option TranslationData :=
  match translation s with
  | Some t =>
      if (0 <? Z.of_nat (List.length (alternatives t)))%Z then Some t else None
  | None => None
  end.

(** The preview of a text in a history row:
    [t.length > 100 ? t.substring(0, 100) + '...' : t]. *)
Definition historyPreview (t : jsstring) : jsstring :=
  if (100 <? JsString.length t)%Z then firstn 100 t ++ lit "..." else t.

(** ** Reachable configurations *)

(** The configurations the component can be in: any events, of the
    user and of the network, from the initial configuration. *)
Definition reachable (c : Config) : Prop :=
  exists es : list Event, c = run initialConfig es.

(** A translation request the validation lets through. *)
Definition request_valid (r : Request) : Prop :=
  match r with
  | POST_translate t f o =>
      ~ blank t /\ f <> o /\ (JsString.length t <= 5000)%Z
  | _ => True
  end.

(** A process that never raises the loading flag and never sends a
    translation request, now or when a call it awaits settles. *)
Fixpoint tame (p : Proc) : Prop :=
  match p with
  | Return => True
  | SetState set k =>
      (forall s : State, loading (set s) = true -> loading s = true) /\ tame k
  | ConsoleError k => tame k
  | ClipboardWrite _ k => tame k
  | Call p k => tame p /\ tame k
  | AwaitLanguages k => forall r, tame (k r)
  | AwaitHistory k => forall r, tame (k r)
  | AwaitTranslate _ _ _ _ => False
  | AwaitDelete k => forall r, tame (k r)
  end.

(** A call in flight whose continuation is tame and, for a translation,
    ends with the loading flag lowered. *)
Definition good (p : Pending) : Prop :=
  match p with
  | PendingLanguages k => forall r, tame (k r)
  | PendingHistory k => forall r, tame (k r)
  | PendingTranslate _ _ _ k =>
      forall r, tame (k r)
                /\ forall c : Config, loading (state (exec (k r) c)) = false
  | PendingDelete k => forall r, tame (k r)
  end.

(** The invariant of the event loop. *)
Definition Inv (c : Config) : Prop :=
  Forall good (inflight c)
  /\ (loading (state c) = true -> (1 <= translations_inflight c)%nat)
  /\ Forall request_valid (sent c).

(** The events that write only the cells a history record overwrites:
    the edits, the swap, the selection, the panel toggle and the load
    of a record. *)
Definition is_edit (e : Event) : bool :=
  match e with
  | ChangeSourceText _ | ChangeFromLang _ | ChangeToLang _ | ClickSwap
  | ClickAlternative _ | ClickToggleHistory | ClickHistoryItem _ => true
  | _ => false
  end.

(** A text with white space around it. *)
Definition paddedMerhaba : jsstring := lit "  merhaba ".

(** A second record, for "selam". *)
Definition selam : TranslationData := {|
  id := lit "43";
  text := lit "selam";
  from_lang := lit "tr";
  to_lang := lit "en";
  main_translation := lit "hi there";
  alternatives := [];
  timestamp := lit "2025-01-01T00:01:00"
|}.

(** ** Strings *)

Example lit_ascii : lit "Enter" = [69; 110; 116; 101; 114]%N.
Proof. vm_compute. reflexivity. Qed.

Example lit_latin : lit "Çeviri başarısız"
  = [199; 101; 118; 105; 114; 105; 32; 98; 97; 351; 97; 114; 305; 115; 305; 122]%N.
Proof. vm_compute. reflexivity. Qed.

Example trim_inner : trim (lit "  a b ") = lit "a b".
Proof. vm_compute. reflexivity. Qed.

Lemma eqb_eq (a b : jsstring) : JsString.eqb a b = true <-> a = b.
Proof.
  revert b; induction a as [|x a IH]; intros [|y b]; simpl;
    try (split; [discriminate | congruence]); try tauto.
  rewrite andb_true_iff, N.eqb_eq, IH. split.
  - intros [-> ->]; reflexivity.
  - intros H; injection H; auto.
Qed.

Lemma eqb_neq (a b : jsstring) : JsString.eqb a b = false <-> a <> b.
Proof.
  rewrite <- eqb_eq. destruct (JsString.eqb a b); split; congruence.
Qed.

Lemma truthy_false (s : jsstring) : truthy s = false <-> s = [].
Proof. destruct s; simpl; split; congruence. Qed.

Lemma trimStart_nil (s : jsstring) : trimStart s = [] <-> blank s.
Proof.
  unfold blank. induction s as [|c s IH]; simpl.
  - split; auto.
  - destruct (isWhiteSpace c) eqn:E.
    + rewrite IH. split; intros H.
      * constructor; assumption.
      * inversion H; assumption.
    + split; [discriminate|]. intros H; inversion H as [|? ? Hc Hr].
      rewrite E in Hc; discriminate.
Qed.

Lemma trimStart_head (s : jsstring) c r :
  trimStart s = c :: r -> isWhiteSpace c = false.
Proof.
  induction s as [|x s IH]; simpl; [discriminate|].
  destruct (isWhiteSpace x) eqn:E; auto.
  intros H; injection H as -> _; assumption.
Qed.

Lemma blank_rev (s : jsstring) : blank (rev s) <-> blank s.
Proof.
  unfold blank. rewrite !Forall_forall. split; intros H x Hx; apply H.
  - apply in_rev in Hx; assumption.
  - apply in_rev; assumption.
Qed.

Lemma trim_nil (s : jsstring) : trim s = [] <-> blank s.
Proof.
  unfold trim, trimEnd. split.
  - intros H. apply (f_equal (@rev N)) in H. rewrite rev_involutive in H.
    simpl in H. apply trimStart_nil in H. apply (proj1 (blank_rev _)) in H.
    destruct (trimStart s) as [|c r] eqn:E.
    + apply trimStart_nil; assumption.
    + apply trimStart_head in E. unfold blank in H.
      inversion H as [|? ? Hc Hr].
      rewrite E in Hc; discriminate.
  - intros H. apply trimStart_nil in H. rewrite H. reflexivity.
Qed.

(** [!sourceText.trim()] holds exactly of the blank texts. *)
Lemma not_trim_blank (s : jsstring) : negb (truthy (trim s)) = true <-> blank s.
Proof.
  rewrite negb_true_iff, truthy_false. apply trim_nil.
Qed.

Lemma not_trim_not_blank (s : jsstring) :
  negb (truthy (trim s)) = false <-> ~ blank s.
Proof.
  rewrite <- not_trim_blank. destruct (negb (truthy (trim s))); split; congruence.
Qed.

(** ** The pending list *)

Lemma nth_error_last {A : Type} (l : list A) (x : A) :
  nth_error (l ++ [x]) (List.length l) = Some x.
Proof. induction l; simpl; auto. Qed.

Lemma remove_nth_last {A : Type} (l : list A) (x : A) :
  remove_nth (List.length l) (l ++ [x]) = l.
Proof. induction l; simpl; congruence. Qed.

Lemma translations_inflight_send (c : Config) (p : Pending) :
  translations_inflight (send p c)
  = (translations_inflight c + (if is_translate p then 1 else 0))%nat.
Proof.
  unfold translations_inflight, send; simpl.
  rewrite filter_app, length_app; simpl.
  destruct (is_translate p); reflexivity.
Qed.

(** ** Validation *)

Lemma valid_not_invalid (s : State) : valid s <-> ~ invalid s.
Proof.
  unfold valid, invalid. split.
  - intros (H1 & H2 & H3) [H | [H | H]]; [tauto | tauto | lia].
  - intros H. repeat split.
    + tauto.
    + tauto.
    + destruct (Z.le_gt_cases (JsString.length (sourceText s)) 5000); [assumption|].
      exfalso; apply H; right; right; lia.
Qed.

(** A submission that fails validation is one [setError]. *)
Lemma handleTranslate_invalid (s : State) :
  invalid s ->
  exists v, handleTranslate s = SetState (setError (validation_message v)) Return.
Proof.
  intros H. unfold handleTranslate.
  destruct (negb (truthy (trim (sourceText s)))) eqn:E1.
  { exists EmptyText; unfold validation_message; reflexivity. }
  destruct (JsString.eqb (fromLang s) (toLang s)) eqn:E2.
  { exists SameLanguage; unfold validation_message; reflexivity. }
  destruct (5000 <? JsString.length (sourceText s))%Z eqn:E3.
  { exists TooLong; unfold validation_message; reflexivity. }
  exfalso. apply not_trim_not_blank in E1. apply eqb_neq in E2.
  apply Z.ltb_ge in E3. destruct H as [H | [H | H]]; [tauto | tauto | lia].
Qed.

(** A submission that passes validation sets the loading flag, clears
    the error and the translation, and sends the request. *)
Lemma handleTranslate_valid (s : State) :
  valid s ->
  negb (truthy (trim (sourceText s))) = false
  /\ JsString.eqb (fromLang s) (toLang s) = false
  /\ (5000 <? JsString.length (sourceText s))%Z = false.
Proof.
  intros (H1 & H2 & H3). repeat split.
  - apply not_trim_not_blank; assumption.
  - apply eqb_neq; assumption.
  - apply Z.ltb_ge; assumption.
Qed.

Ltac submit_valid H :=
  let E1 := fresh "E" in
  let E2 := fresh "E" in
  let E3 := fresh "E" in
  destruct (handleTranslate_valid H) as (E1 & E2 & E3);
  unfold handleTranslate; rewrite E1, E2, E3; cbn [exec].

(** ** Validation failures (C3, C10) *)

Lemma validation_message_truthy (v : ValidationError) :
  truthy (validation_message v) = true.
Proof. destruct v; vm_compute; reflexivity. Qed.

(** C3.  When the text is empty or whitespace-only, or longer than 5000
    code units, or the source language equals the target language,
    [handleTranslate] reports a validation error (the error cell holds
    one of the three validation messages, which is not empty) and sends
    nothing: the calls in flight and the requests sent are those of
    before, so no translation request is issued. *)
Theorem invalid_submit_is_local (c : Config) :
  invalid (state c) ->
  let c' := exec (handleTranslate (state c)) c in
  (exists v : ValidationError,
      error (state c') = validation_message v
      /\ truthy (error (state c')) = true)
  /\ inflight c' = inflight c
  /\ sent c' = sent c
  /\ filter is_translate_request (sent c') = filter is_translate_request (sent c).
Proof.
  intros H. destruct (handleTranslate_invalid H) as [v Hv].
  cbv zeta. rewrite Hv. cbn [exec update state inflight sent setError error].
  repeat split.
  exists v. split; [reflexivity | apply validation_message_truthy].
Qed.

Lemma blank_spaces : blank (lit "   ").
Proof. repeat constructor. Qed.

Lemma invalid_submit_is_local_witness :
  let c := update (setSourceText (lit "   ")) initialConfig in
  let c' := exec (handleTranslate (state c)) c in
  invalid (state c)
  /\ (exists v : ValidationError,
         error (state c') = validation_message v
         /\ truthy (error (state c')) = true)
  /\ inflight c' = inflight c
  /\ sent c' = sent c
  /\ filter is_translate_request (sent c') = filter is_translate_request (sent c).
Proof.
  split.
  - left. exact blank_spaces.
  - apply (invalid_submit_is_local (update (setSourceText (lit "   ")) initialConfig)).
    left. exact blank_spaces.
Defined.

(** The other two validation failures, and the boundary of the length
    check: 5000 code units pass, 5001 do not. *)
Example same_language_rejected :
  let c := run initialConfig [ChangeSourceText merhaba; ChangeToLang (lit "tr")] in
  let c' := step c ClickTranslate in
  error (state c') = msg_same_language /\ sent c' = [].
Proof. vm_compute. split; reflexivity. Qed.

Example too_long_rejected :
  let c := run initialConfig [ChangeSourceText (letters 5001)] in
  let c' := step c ClickTranslate in
  error (state c') = msg_too_long /\ sent c' = [].
Proof. vm_compute. split; reflexivity. Qed.

Example longest_accepted :
  let c := run initialConfig [ChangeSourceText (letters 5000)] in
  let c' := step c ClickTranslate in
  error (state c') = [] /\ translations_inflight c' = 1%nat.
Proof. vm_compute. split; reflexivity. Qed.

Example empty_rejected_by_key :
  let c' := step initialConfig (KeyDown ctrlEnter) in
  error (state c') = msg_empty_text /\ sent c' = [].
Proof. vm_compute. split; reflexivity. Qed.

(** C10.  A submission that fails validation writes the error cell and
    nothing else: the text, the language pair, the stored translation,
    the selected output, the loading flag and the other cells are those
    of before, and so are the calls in flight. *)
Theorem invalid_submit_frame (c : Config) :
  invalid (state c) ->
  let s := state c in
  let c' := exec (handleTranslate s) c in
  let s' := state c' in
  sourceText s' = sourceText s
  /\ fromLang s' = fromLang s
  /\ toLang s' = toLang s
  /\ translation s' = translation s
  /\ selectedAlternative s' = selectedAlternative s
  /\ loading s' = loading s
  /\ history s' = history s
  /\ languages s' = languages s
  /\ showHistory s' = showHistory s
  /\ inflight c' = inflight c.
Proof.
  intros H. destruct (handleTranslate_invalid H) as [v Hv].
  cbv zeta. rewrite Hv. cbn. repeat split.
Qed.

Lemma invalid_submit_frame_witness :
  let c := resultThenBlank in
  let c' := exec (handleTranslate (state c)) c in
  invalid (state c)
  /\ translation (state c) = Some hello
  /\ translation (state c') = Some hello
  /\ selectedAlternative (state c') = lit "hello"
  /\ loading (state c') = loading (state c).
Proof.
  assert (H : invalid (state resultThenBlank)) by (left; constructor).
  pose proof (invalid_submit_frame resultThenBlank H) as F.
  cbv zeta in F. destruct F as (_ & _ & _ & Ft & Fs & Fl & _).
  cbv zeta. split; [exact H|]. split; [reflexivity|].
  split; [rewrite Ft; reflexivity|].
  split; [rewrite Fs; reflexivity | exact Fl].
Defined.

(** ** Selection and edits (C8, C9) *)

(** C8.  For all strings [x] and [y], member of the alternatives or
    not, selecting [x] and then [y] leaves [y] selected and the stored
    translation as it was. *)
Theorem select_twice (c : Config) (x y : jsstring) :
  let c' := run c [ClickAlternative x; ClickAlternative y] in
  selectedAlternative (state c') = y
  /\ translation (state c') = translation (state c)
  /\ state c' = setSelectedAlternative y (state c).
Proof. cbn. repeat split. Qed.

(** C9.  Editing the text, the source language or the target language
    writes that one cell: the phase is the one of before, the error
    message and the stored translation are kept, every other cell is
    kept, and no call is sent. *)
Theorem edits_frame (c : Config) (v : jsstring) :
  let s := state c in
  (let c' := step c (ChangeSourceText v) in
   let s' := state c' in
   sourceText s' = v
   /\ phase s' = phase s /\ error s' = error s /\ translation s' = translation s
   /\ fromLang s' = fromLang s /\ toLang s' = toLang s
   /\ selectedAlternative s' = selectedAlternative s /\ loading s' = loading s
   /\ history s' = history s /\ languages s' = languages s
   /\ showHistory s' = showHistory s
   /\ inflight c' = inflight c /\ sent c' = sent c)
  /\
  (let c' := step c (ChangeFromLang v) in
   let s' := state c' in
   fromLang s' = v
   /\ phase s' = phase s /\ error s' = error s /\ translation s' = translation s
   /\ sourceText s' = sourceText s /\ toLang s' = toLang s
   /\ selectedAlternative s' = selectedAlternative s /\ loading s' = loading s
   /\ history s' = history s /\ languages s' = languages s
   /\ showHistory s' = showHistory s
   /\ inflight c' = inflight c /\ sent c' = sent c)
  /\
  (let c' := step c (ChangeToLang v) in
   let s' := state c' in
   toLang s' = v
   /\ phase s' = phase s /\ error s' = error s /\ translation s' = translation s
   /\ sourceText s' = sourceText s /\ fromLang s' = fromLang s
   /\ selectedAlternative s' = selectedAlternative s /\ loading s' = loading s
   /\ history s' = history s /\ languages s' = languages s
   /\ showHistory s' = showHistory s
   /\ inflight c' = inflight c /\ sent c' = sent c).
Proof. cbn. repeat split. Qed.

(** ** Submissions that reach the service (C7, C1) *)

(** The configuration in which the continuation of a submission runs:
    the cells written before the request, the request logged. *)
Ltac settle_last :=
  unfold settle, send;
  cbn [inflight state sent update];
  rewrite nth_error_last;
  cbn [resume];
  rewrite remove_nth_last;
  cbn [exec update send state inflight sent request_of].

(** C7.  When a submission passes validation and the service answers
    with a translation, the translation is stored and the selected
    output is its main translation; nothing is loading, no error is
    showing, and the phase is [Result]. *)
Theorem successful_submit_selects_main (c : Config) (data : TranslationData) :
  valid (state c) ->
  let c1 := exec (handleTranslate (state c)) c in
  let c2 := settle (List.length (inflight c))
                   (TranslateResponse (TranslateOk (JsonValue data))) c1 in
  translation (state c2) = Some data
  /\ selectedAlternative (state c2) = main_translation data
  /\ loading (state c2) = false
  /\ error (state c2) = []
  /\ phase (state c2) = Result.
Proof.
  intros H. cbv zeta. submit_valid H. settle_last.
  unfold fetchHistory; cbn [exec update send state inflight sent].
  cbn. repeat split.
Qed.

Lemma valid_merhaba : valid (state (update (setSourceText merhaba) initialConfig)).
Proof.
  unfold valid. cbn [state update setSourceText sourceText fromLang toLang initialConfig initialState].
  repeat split.
  - intros H. inversion H as [|? ? Hc Hr]. vm_compute in Hc. discriminate.
  - intros H. vm_compute in H. discriminate.
  - vm_compute. discriminate.
Qed.

Lemma successful_submit_selects_main_witness :
  let c := update (setSourceText merhaba) initialConfig in
  let c1 := exec (handleTranslate (state c)) c in
  let c2 := settle 0 (TranslateResponse (TranslateOk (JsonValue hello))) c1 in
  valid (state c)
  /\ translation (state c2) = Some hello
  /\ selectedAlternative (state c2) = lit "hello"
  /\ loading (state c2) = false
  /\ error (state c2) = []
  /\ phase (state c2) = Result.
Proof.
  split; [exact valid_merhaba|].
  exact (successful_submit_selects_main
           (update (setSourceText merhaba) initialConfig) hello valid_merhaba).
Defined.

(** What the catch block stores is the message of the failure. *)
Lemma detail_message (d : option jsstring) (m : jsstring) :
  remote_failure (TranslateNotOk (JsonValue {| detail := d |})) m ->
  match d with
  | Some d => or_else d msg_translate_failed
  | None => msg_translate_failed
  end = m.
Proof.
  intros H. inversion H; subst; try reflexivity.
  unfold or_else. destruct m; [congruence | reflexivity].
Qed.

(** C1, as the code has it.  When a submission passes validation and
    the remote call fails, the translation stored before is gone: the
    submission set it to null before sending.  The selected output is
    the one of before, the error cell holds the message of the failure
    (the transport's or parser's own message, the service's detail, or
    the fallback when the service gives none), nothing is loading, and
    the phase is [Error] when that message is not empty. *)
Theorem failed_submit_clears_result (c : Config) (r : TranslateResult) (m : jsstring) :
  valid (state c) ->
  remote_failure r m ->
  let c1 := exec (handleTranslate (state c)) c in
  let c2 := settle (List.length (inflight c)) (TranslateResponse r) c1 in
  translation (state c1) = None
  /\ translation (state c2) = None
  /\ selectedAlternative (state c2) = selectedAlternative (state c)
  /\ sourceText (state c2) = sourceText (state c)
  /\ error (state c2) = m
  /\ loading (state c2) = false
  /\ (m <> [] -> phase (state c2) = Error).
Proof.
  intros H F. cbv zeta. submit_valid H. settle_last.
  assert (PE : forall s : State, loading s = false -> translation s = None ->
                                error s = m -> m <> [] -> phase s = Error).
  { intros s Hl Ht He Hm. unfold phase. rewrite Hl, He.
    destruct m; [congruence | reflexivity]. }
  destruct r as [m' | [m' | [d]] | [m' | data]];
    cbn [exec update state setError setLoading setTranslation
         translation selectedAlternative sourceText error loading detail].
  - inversion F; subst. repeat split. intros Hm. apply PE; auto.
  - inversion F; subst. repeat split. intros Hm. apply PE; auto.
  - rewrite (detail_message F). repeat split. intros Hm. apply PE; auto.
  - inversion F; subst. repeat split. intros Hm. apply PE; auto.
  - inversion F.
Qed.

Example afterHello_result :
  phase (state afterHello) = Result
  /\ translation (state afterHello) = Some hello
  /\ selectedAlternative (state afterHello) = lit "hello"
  /\ map request_of (inflight afterHello) = [GET_history].
Proof. vm_compute. repeat split. Qed.

Example afterHello_select_alternative :
  let c := step afterHello (ClickAlternative (lit "hi")) in
  selectedAlternative (state c) = lit "hi"
  /\ option_map main_translation (translation (state c)) = Some (lit "hello").
Proof. vm_compute. repeat split. Qed.

Lemma valid_afterHello : valid (state afterHello).
Proof.
  unfold valid. repeat split.
  - intros H. inversion H as [|? ? Hc Hr]. vm_compute in Hc. discriminate.
  - intros H. vm_compute in H. discriminate.
  - vm_compute. discriminate.
Qed.

Lemma failedToFetch_not_empty : failedToFetch <> [].
Proof. vm_compute. discriminate. Qed.

Lemma failed_submit_clears_result_witness :
  let c := afterHello in
  let c1 := exec (handleTranslate (state c)) c in
  let c2 := settle (List.length (inflight c))
                   (TranslateResponse (TranslateRejects failedToFetch)) c1 in
  valid (state c)
  /\ remote_failure (TranslateRejects failedToFetch) failedToFetch
  /\ translation (state c) = Some hello
  /\ translation (state c2) = None
  /\ selectedAlternative (state c2) = lit "hello"
  /\ error (state c2) = failedToFetch
  /\ phase (state c2) = Error.
Proof.
  pose proof (failed_submit_clears_result afterHello valid_afterHello
                (failure_transport failedToFetch)) as F.
  cbv zeta in F. destruct F as (_ & Ft & Fs & _ & Fe & _ & Fp).
  cbv zeta. split; [exact valid_afterHello|]. split; [constructor|].
  split; [reflexivity|]. split; [exact Ft|].
  split; [rewrite Fs; reflexivity|]. split; [exact Fe|].
  exact (Fp failedToFetch_not_empty).
Defined.

(** C1 fails as stated: with "hello" stored by a successful submission,
    a second submission whose call is rejected by the transport leaves
    no translation stored. *)
Lemma failed_submit_keeps_result_counterexample :
  let c := afterHello in
  let c1 := step c ClickTranslate in
  let c2 := step c1 (Settle 1 (TranslateResponse (TranslateRejects failedToFetch))) in
  translation (state c) = Some hello
  /\ translateButton_disabled (state c) = false
  /\ translations_inflight c1 = 1%nat
  /\ translation (state c2) = None
  /\ translation (state c2) <> translation (state c)
  /\ phase (state c2) = Error.
Proof.
  cbv zeta. repeat split; try (vm_compute; reflexivity).
  vm_compute. discriminate.
Qed.

(** ** Submissions while loading (C2) *)

(** The translate button does nothing while a request is loading. *)
Lemma click_translate_while_loading (c : Config) :
  loading (state c) = true -> step c ClickTranslate = c.
Proof.
  intros H. unfold step, handler, translateButton_disabled. rewrite H.
  reflexivity.
Qed.

(** [handleTranslate] itself does not read the loading flag: whenever
    the fields are valid it sends one more translation request. *)
Lemma handleTranslate_sends (c : Config) :
  valid (state c) ->
  let c' := exec (handleTranslate (state c)) c in
  translations_inflight c' = S (translations_inflight c)
  /\ sent c' = sent c ++ [POST_translate (sourceText (state c))
                                         (fromLang (state c)) (toLang (state c))].
Proof.
  intros H. cbv zeta. submit_valid H. split.
  - rewrite translations_inflight_send.
    unfold translations_inflight. cbn [inflight update is_translate]. lia.
  - reflexivity.
Qed.

(** The phase is [Loading] exactly while the loading flag is set. *)
Lemma phase_loading (s : State) : phase s = Loading <-> loading s = true.
Proof.
  unfold phase. destruct (loading s); [tauto|].
  destruct (truthy (error s)); [split; discriminate|].
  destruct (translation s); split; discriminate.
Qed.

(** In every [Loading] state with valid fields, Ctrl+Enter puts one
    more translation request in flight. *)
Lemma keydown_while_loading (c : Config) :
  phase (state c) = Loading ->
  valid (state c) ->
  translations_inflight (step c (KeyDown ctrlEnter))
  = S (translations_inflight c).
Proof.
  intros _ H. unfold step, handler, handleKeyPress.
  replace ((ctrlKey ctrlEnter || metaKey ctrlEnter)
           && JsString.eqb (key ctrlEnter) (lit "Enter")) with true
    by (vm_compute; reflexivity).
  cbn [exec]. exact (proj1 (handleTranslate_sends c H)).
Qed.

(** C2 at its failing input.  With the translation of "merhaba" in
    flight the phase is [Loading]; the button is then inert, but
    Ctrl+Enter calls [handleTranslate], which sends a second
    translation request: two are in flight at once. *)
Theorem keydown_while_loading_sends_again :
  let c1 := run initialConfig [ChangeSourceText merhaba; ClickTranslate] in
  let c2 := step c1 (KeyDown ctrlEnter) in
  phase (state c1) = Loading
  /\ translations_inflight c1 = 1%nat
  /\ step c1 ClickTranslate = c1
  /\ translations_inflight c2 = 2%nat
  /\ sent c2 = [ POST_translate merhaba (lit "tr") (lit "en");
                 POST_translate merhaba (lit "tr") (lit "en") ].
Proof.
  cbv zeta. split; [vm_compute; reflexivity|]. split; [vm_compute; reflexivity|].
  split; [apply click_translate_while_loading; vm_compute; reflexivity|].
  split; vm_compute; reflexivity.
Qed.

(** ** Clearing the history (C4) *)

Example withHistory_loaded :
  history (state withHistory) = [hello] /\ inflight withHistory = [].
Proof. vm_compute. split; reflexivity. Qed.

(** C4 fails as stated: the list is not emptied when the clear is
    initiated, and when the DELETE call is rejected it is not emptied
    at all. *)
Lemma clearHistory_optimistic_counterexample :
  let c1 := step withHistory ClickClearHistory in
  let c2 := step c1 (Settle 0 (DeleteResponse (DeleteRejects failedToFetch))) in
  history (state withHistory) = [hello]
  /\ sent c1 = sent withHistory ++ [DELETE_history]
  /\ history (state c1) = [hello]
  /\ inflight c2 = []
  /\ history (state c2) = [hello]
  /\ history (state c2) <> [].
Proof.
  cbv zeta. repeat split; try (vm_compute; reflexivity).
  vm_compute. discriminate.
Qed.

(** C4, as the code has it.  [clearHistory] sends the DELETE call and
    leaves the list as it is while the call is in flight.  When the
    call resolves, with whatever status, the list is emptied; when it
    rejects, the state is the one of before. *)
Theorem clearHistory_after_delete (c : Config) :
  let c1 := step c ClickClearHistory in
  let n := List.length (inflight c) in
  history (state c1) = history (state c)
  /\ sent c1 = sent c ++ [DELETE_history]
  /\ (forall ok : bool,
         let c2 := step c1 (Settle n (DeleteResponse (DeleteResolves ok))) in
         history (state c2) = [] /\ inflight c2 = inflight c)
  /\ (forall m : jsstring,
         let c2 := step c1 (Settle n (DeleteResponse (DeleteRejects m))) in
         state c2 = state c /\ inflight c2 = inflight c).
Proof.
  cbv zeta. cbn [step handler clearHistory exec].
  split; [reflexivity|]. split; [reflexivity|].
  split; intros x; settle_last; split; reflexivity.
Qed.

(** ** Loading a history record (C5) *)

(** C5 fails as stated: a record clicked while a translation is in
    flight is loaded, but the loading flag stays set, the spinner keeps
    the place of the output and the phase is [Loading], not [Result]. *)
Lemma loadHistoryItem_phase_counterexample :
  let c := run withHistory
             [ClickToggleHistory; ChangeSourceText merhaba; ClickTranslate] in
  let c' := step c (ClickHistoryItem hello) in
  In hello (history (state c))
  /\ showHistory (state c) = true
  /\ translation (state c') = Some hello
  /\ loading (state c') = true
  /\ phase (state c') = Loading
  /\ phase (state c') <> Result.
Proof.
  cbv zeta. split; [left; reflexivity|].
  repeat split; try (vm_compute; reflexivity).
  vm_compute. discriminate.
Qed.

(** C5, as the code has it.  [loadHistoryItem] sends nothing, takes
    the text, the language pair and the translation from the record,
    selects the record's main translation and hides the history panel.
    It leaves the loading flag and the error message as they were, so
    the phase is [Result] exactly when nothing was loading and no
    error was showing. *)
Theorem loadHistoryItem_rehydrates (c : Config) (item : TranslationData) :
  let s := state c in
  let c' := step c (ClickHistoryItem item) in
  let s' := state c' in
  sent c' = sent c
  /\ inflight c' = inflight c
  /\ sourceText s' = text item
  /\ fromLang s' = from_lang item
  /\ toLang s' = to_lang item
  /\ translation s' = Some item
  /\ selectedAlternative s' = main_translation item
  /\ showHistory s' = false
  /\ loading s' = loading s
  /\ error s' = error s
  /\ history s' = history s
  /\ (phase s' = Result <-> loading s = false /\ error s = []).
Proof.
  cbv zeta. cbn [step handler loadHistoryItem exec].
  repeat (split; [reflexivity|]).
  unfold phase; cbn.
  destruct (loading (state c)); [split; [discriminate | intros [? _]; discriminate]|].
  destruct (error (state c)); cbn.
  - split; auto.
  - split; [discriminate | intros [_ ?]; discriminate].
Qed.

Lemma loadHistoryItem_rehydrates_witness :
  let c' := step withHistory (ClickHistoryItem hello) in
  loading (state withHistory) = false /\ error (state withHistory) = []
  /\ phase (state c') = Result
  /\ selectedAlternative (state c') = lit "hello"
  /\ sent c' = sent withHistory.
Proof.
  pose proof (loadHistoryItem_rehydrates withHistory hello) as F.
  cbv zeta in F. destruct F as (Fs & _ & _ & _ & _ & _ & Fm & _ & _ & _ & _ & Fp).
  cbv zeta. split; [reflexivity|]. split; [reflexivity|].
  split; [apply Fp; split; reflexivity|]. split; [exact Fm | exact Fs].
Defined.

(** ** Swapping the languages (C6) *)

(** C6 fails as stated: with a translation stored and a validation
    message showing, the swap clears the translation and moves the
    selected output into the text, but the message stays and the phase
    is [Error], not [Idle]. *)
Lemma swapLanguages_phase_counterexample :
  let c := resultWithError in
  let c' := step c ClickSwap in
  translation (state c) = Some hello
  /\ error (state c) = msg_empty_text
  /\ translation (state c') = None
  /\ sourceText (state c') = lit "hello"
  /\ error (state c') = msg_empty_text
  /\ phase (state c') = Error
  /\ phase (state c') <> Idle.
Proof.
  cbv zeta. repeat split; try (vm_compute; reflexivity).
  vm_compute. discriminate.
Qed.

(** C6, as the code has it.  In every state two swaps restore the
    language pair.  When a translation is stored, the first swap moves
    the selected output into the text, clears the translation and the
    selection, and leaves the loading flag and the error message as
    they were, so the phase goes to [Idle] when it was [Result]; the
    second swap then exchanges the pair only, so two swaps do not
    restore the translation.  When no translation is stored a swap
    exchanges the pair and nothing else.  No swap sends a request. *)
Theorem swapLanguages_twice (c : Config) :
  let s := state c in
  let c1 := step c ClickSwap in
  let c2 := step c1 ClickSwap in
  (fromLang (state c1) = toLang s /\ toLang (state c1) = fromLang s)
  /\ (fromLang (state c2) = fromLang s /\ toLang (state c2) = toLang s)
  /\ (inflight c2 = inflight c /\ sent c2 = sent c)
  /\ (forall d : TranslationData,
         translation s = Some d ->
         sourceText (state c1) = selectedAlternative s
         /\ translation (state c1) = None
         /\ selectedAlternative (state c1) = []
         /\ loading (state c1) = loading s
         /\ error (state c1) = error s
         /\ (phase s = Result -> phase (state c1) = Idle)
         /\ sourceText (state c2) = selectedAlternative s
         /\ translation (state c2) = None
         /\ translation (state c2) <> translation s)
  /\ (translation s = None ->
         state c1 = setToLang (fromLang s) (setFromLang (toLang s) s)
         /\ state c2 = setToLang (toLang s) (setFromLang (fromLang s) s)
         /\ sourceText (state c2) = sourceText s
         /\ selectedAlternative (state c2) = selectedAlternative s
         /\ phase (state c1) = phase s).
Proof.
  cbv zeta. unfold step, handler, swapLanguages.
  destruct (translation (state c)) as [d0|] eqn:T;
    cbn [exec update state inflight sent setFromLang setToLang setSourceText
         setTranslation setSelectedAlternative translation fromLang toLang
         sourceText selectedAlternative loading error].
  - do 3 (split; [split; reflexivity|]). split.
    + intros d _. do 5 (split; [reflexivity|]). split.
      { unfold phase; cbn. rewrite T.
        destruct (loading (state c)); [discriminate|].
        destruct (truthy (error (state c))); [discriminate | reflexivity]. }
      split; [reflexivity|]. split; [reflexivity | discriminate].
    + discriminate.
  - rewrite T.
    cbn [exec update state inflight sent setFromLang setToLang setSourceText
         setTranslation setSelectedAlternative translation fromLang toLang
         sourceText selectedAlternative loading error].
    do 3 (split; [split; reflexivity|]). split.
    + intros d Hd; discriminate.
    + intros _. do 4 (split; [reflexivity|]).
      unfold phase; cbn. rewrite T. reflexivity.
Qed.

Lemma swapLanguages_twice_witness :
  let c := afterHello in
  let c1 := step c ClickSwap in
  let c2 := step c1 ClickSwap in
  translation (state c) = Some hello
  /\ phase (state c) = Result
  /\ phase (state c1) = Idle
  /\ sourceText (state c1) = lit "hello"
  /\ translation (state c2) <> translation (state c)
  /\ (fromLang (state c2) = lit "tr" /\ toLang (state c2) = lit "en")
  /\ (translation (state c1) = None ->
      state c2 = setToLang (fromLang (state c1))
                   (setFromLang (toLang (state c1)) (state c1))).
Proof.
  pose proof (swapLanguages_twice afterHello) as F.
  cbv zeta in F. destruct F as (_ & Fp & _ & Fr & _).
  destruct (Fr hello eq_refl) as (Ft & _ & _ & _ & _ & Fi & _ & _ & Fn).
  cbv zeta. split; [reflexivity|]. split; [reflexivity|].
  split; [apply Fi; reflexivity|]. split; [exact Ft|]. split; [exact Fn|].
  split; [exact Fp|].
  intros H.
  pose proof (swapLanguages_twice (step afterHello ClickSwap)) as G.
  cbv zeta in G. destruct G as (_ & _ & _ & _ & Gn).
  exact (proj1 (Gn H)).
Defined.

(** ** Invariants of the event loop *)

Lemma request_valid_other (r : Request) :
  is_translate_request r = false -> request_valid r.
Proof. destruct r; simpl; auto; discriminate. Qed.

Lemma Forall_remove_nth {A : Type} (P : A -> Prop) (n : nat) (l : list A) :
  Forall P l -> Forall P (remove_nth n l).
Proof.
  revert n; induction l as [|x l IH]; intros n H; destruct n; simpl; auto.
  - inversion H; assumption.
  - inversion H; subst. constructor; auto.
Qed.

Lemma filter_remove_nth {A : Type} (f : A -> bool) (n : nat) (l : list A) (x : A) :
  nth_error l n = Some x -> f x = false ->
  filter f (remove_nth n l) = filter f l.
Proof.
  revert n; induction l as [|y l IH]; intros n H F; destruct n; simpl in *;
    try discriminate.
  - injection H as ->. rewrite F. reflexivity.
  - rewrite (IH n H F). reflexivity.
Qed.

(** A tame process keeps the calls in flight good, leaves the number
    of translations in flight and the loading flag alone, and sends no
    translation request. *)
Lemma tame_exec (p : Proc) :
  forall c : Config,
    tame p ->
    Forall good (inflight c) ->
    Forall good (inflight (exec p c))
    /\ translations_inflight (exec p c) = translations_inflight c
    /\ (loading (state (exec p c)) = true -> loading (state c) = true)
    /\ exists ext, sent (exec p c) = sent c ++ ext
                   /\ Forall (fun r => is_translate_request r = false) ext.
Proof.
  assert (S0 : forall c q, good q -> is_translate q = false ->
                           Forall good (inflight c) ->
    Forall good (inflight (send q c))
    /\ translations_inflight (send q c) = translations_inflight c
    /\ (loading (state (send q c)) = true -> loading (state c) = true)
    /\ exists ext, sent (send q c) = sent c ++ ext
                   /\ Forall (fun r => is_translate_request r = false) ext).
  { intros c q G T F. split; [|split; [|split]].
    - unfold send; cbn. apply Forall_app; split; [assumption | repeat constructor; assumption].
    - rewrite translations_inflight_send, T. lia.
    - auto.
    - exists [request_of q]. split; [reflexivity|].
      repeat constructor. destruct q; try reflexivity; discriminate. }
  induction p as [| set k IHk | k IHk | t k IHk | p IHp k IHk
                  | k IHk | k IHk | t f o k IHk | k IHk];
    intros c T G; cbn [exec]; cbn [tame] in T.
  - repeat split; auto. exists []. rewrite app_nil_r. split; constructor.
  - destruct T as [Tl Tk].
    destruct (IHk (update set c) Tk G) as (H1 & H2 & H3 & ext & H4 & H5).
    repeat split; auto. exists ext; auto.
  - apply IHk; assumption.
  - apply IHk; assumption.
  - destruct T as [Tp Tk].
    destruct (IHp c Tp G) as (H1 & H2 & H3 & ext & H4 & H5).
    destruct (IHk (exec p c) Tk H1) as (K1 & K2 & K3 & ext' & K4 & K5).
    repeat split; [assumption | congruence | auto |].
    exists (ext ++ ext'). rewrite K4, H4, app_assoc. split; [reflexivity|].
    apply Forall_app; split; assumption.
  - apply S0; auto.
  - apply S0; auto.
  - contradiction.
  - apply S0; auto.
Qed.

Lemma fetchHistory_tame : tame fetchHistory.
Proof. intros [m | ok [m | data]]; cbn; repeat split; auto. Qed.

Lemma fetchLanguages_tame : tame fetchLanguages.
Proof. intros [m | ok [m | data]]; cbn; repeat split; auto. Qed.

Lemma clearHistory_tame : tame clearHistory.
Proof. intros [m | ok]; cbn; repeat split; auto. Qed.

(** The continuation of a submission is good. *)
Lemma handleTranslate_good (s : State) (c : Config) :
  Forall good (inflight c) ->
  Forall good (inflight (exec (handleTranslate s) c)).
Proof.
  intros G. unfold handleTranslate.
  destruct (negb (truthy (trim (sourceText s)))); [exact G|].
  destruct (JsString.eqb (fromLang s) (toLang s)); [exact G|].
  destruct (5000 <? JsString.length (sourceText s))%Z; [exact G|].
  cbn [exec]. unfold send; cbn [inflight update].
  apply Forall_app; split; [exact G|]. constructor; [|constructor].
  intros r.
  destruct r as [m | [m | [d]] | [m | data]];
    cbn [tame exec update state loading setLoading];
    repeat split; auto; try discriminate.
  apply fetchHistory_tame.
Qed.

(** Every handler but [handleTranslate] is tame. *)
Lemma handler_tame (s : State) (e : Event) :
  match e with ClickTranslate | KeyDown _ => True | _ => tame (handler s e) end.
Proof.
  destruct e; try exact I; cbn [handler];
    try (cbn; repeat split; auto; fail).
  - cbn [tame]. repeat split; [apply fetchLanguages_tame | apply fetchHistory_tame].
  - unfold swapLanguages. destruct (translation s); cbn; repeat split; auto.
  - apply clearHistory_tame.
Qed.

Lemma tame_inv (p : Proc) (c : Config) :
  tame p -> Inv c -> Inv (exec p c).
Proof.
  intros T (G & L & V).
  destruct (tame_exec p c T G) as (H1 & H2 & H3 & ext & H4 & H5).
  split; [assumption|]. split.
  - intros H. rewrite H2. auto.
  - rewrite H4. apply Forall_app; split; [assumption|].
    eapply Forall_impl; [|exact H5]. apply request_valid_other.
Qed.

Lemma handleTranslate_inv (c : Config) :
  Inv c -> Inv (exec (handleTranslate (state c)) c).
Proof.
  intros I0. pose proof I0 as (G & L & V).
  split; [apply handleTranslate_good; assumption|].
  unfold handleTranslate.
  destruct (negb (truthy (trim (sourceText (state c))))) eqn:E1;
    [cbn; split; assumption|].
  destruct (JsString.eqb (fromLang (state c)) (toLang (state c))) eqn:E2;
    [cbn; split; assumption|].
  destruct (5000 <? JsString.length (sourceText (state c)))%Z eqn:E3;
    [cbn; split; assumption|].
  cbn [exec]. split.
  - intros _. rewrite translations_inflight_send. cbn [is_translate]. lia.
  - unfold send; cbn [sent update request_of].
    apply Forall_app; split; [assumption|]. constructor; [|constructor].
    cbn [request_valid]. repeat split.
    + apply not_trim_not_blank; assumption.
    + apply eqb_neq; assumption.
    + apply Z.ltb_ge; assumption.
Qed.

Lemma settle_inv (n : nat) (r : Response) (c : Config) :
  Inv c -> Inv (settle n r c).
Proof.
  intros I0. pose proof I0 as (G & L & V). unfold settle.
  destruct (nth_error (inflight c) n) as [p|] eqn:E; [|assumption].
  destruct (resume p r) as [k|] eqn:R; [|assumption].
  assert (Gp : good p).
  { rewrite Forall_forall in G. apply G. eapply nth_error_In; eassumption. }
  set (c0 := {| state := state c; inflight := remove_nth n (inflight c);
                sent := sent c |}).
  assert (G0 : Forall good (inflight c0)) by (apply Forall_remove_nth; assumption).
  assert (Other : is_translate p = false -> tame k -> Inv (exec k c0)).
  { intros Tp Tk. apply tame_inv; [assumption|].
    split; [assumption|]. split; [|assumption].
    unfold translations_inflight, c0; cbn [inflight state].
    rewrite (filter_remove_nth is_translate n (inflight c) E Tp). exact L. }
  destruct p as [k0 | k0 | t f o k0 | k0]; destruct r as [r | r | r | r];
    try discriminate; cbn in R; injection R as <-; cbn [good] in Gp;
    try (apply Other; [reflexivity | apply Gp]).
  destruct (Gp r) as [Tk Lk].
  destruct (tame_exec (k0 r) c0 Tk G0) as (H1 & _ & _ & ext & H4 & H5).
  split; [assumption|]. split.
  - rewrite Lk. discriminate.
  - rewrite H4. apply Forall_app; split; [assumption|].
    eapply Forall_impl; [|exact H5]. apply request_valid_other.
Qed.

Lemma step_inv (c : Config) (e : Event) : Inv c -> Inv (step c e).
Proof.
  intros I0. pose proof (handler_tame (state c) e) as T.
  destruct e; cbn [step]; try (apply tame_inv; assumption).
  - cbn [handler]. destruct (translateButton_disabled (state c)).
    + assumption.
    + apply handleTranslate_inv; assumption.
  - cbn [handler]. unfold handleKeyPress.
    destruct ((ctrlKey e || metaKey e) && JsString.eqb (key e) (lit "Enter")).
    + cbn [exec]. apply handleTranslate_inv; assumption.
    + assumption.
  - apply settle_inv; assumption.
Qed.

Lemma run_inv (es : list Event) : forall c : Config, Inv c -> Inv (run c es).
Proof.
  induction es as [|e es IH]; intros c I0; cbn; [assumption|].
  apply IH, step_inv, I0.
Qed.

Lemma reachable_inv (c : Config) : reachable c -> Inv c.
Proof.
  intros [es ->]. apply run_inv. repeat split; auto; try constructor.
  cbn. discriminate.
Qed.

Lemma reachable_run (c : Config) (es : list Event) :
  reachable c -> reachable (run c es).
Proof.
  intros [es0 ->]. exists (es0 ++ es). unfold run. rewrite fold_left_app.
  reflexivity.
Qed.

(** While the spinner shows, a translation request is in flight: in
    every reachable configuration with the loading flag set, at least
    one [POST /api/translate] call is pending. *)
Theorem loading_has_request_inflight (c : Config) :
  reachable c ->
  loading (state c) = true ->
  (1 <= translations_inflight c)%nat.
Proof.
  intros R. destruct (reachable_inv R) as (_ & L & _). exact L.
Qed.

Lemma loading_has_request_inflight_witness :
  let c := run initialConfig [ChangeSourceText merhaba; ClickTranslate] in
  reachable c /\ loading (state c) = true /\ (1 <= translations_inflight c)%nat.
Proof.
  cbv zeta.
  assert (R : reachable (run initialConfig [ChangeSourceText merhaba; ClickTranslate]))
    by (eexists; reflexivity).
  split; [exact R|]. split; [reflexivity|].
  apply (loading_has_request_inflight R). reflexivity.
Defined.

(** The component never sends a translation request that validation
    would refuse: in every reachable configuration each
    [POST /api/translate] sent so far carries a text that is not blank
    and has at most 5000 code units, and two different language codes. *)
Theorem sent_requests_valid (c : Config) (t f o : jsstring) :
  reachable c ->
  In (POST_translate t f o) (sent c) ->
  ~ blank t /\ f <> o /\ (JsString.length t <= 5000)%Z.
Proof.
  intros R H. destruct (reachable_inv R) as (_ & _ & V).
  rewrite Forall_forall in V. exact (V _ H).
Qed.

Lemma sent_requests_valid_witness :
  let c := run initialConfig [ChangeSourceText merhaba; ClickTranslate] in
  reachable c
  /\ In (POST_translate merhaba (lit "tr") (lit "en")) (sent c)
  /\ ~ blank merhaba /\ lit "tr" <> lit "en" /\ (JsString.length merhaba <= 5000)%Z.
Proof.
  cbv zeta.
  assert (R : reachable (run initialConfig [ChangeSourceText merhaba; ClickTranslate]))
    by (eexists; reflexivity).
  assert (H : In (POST_translate merhaba (lit "tr") (lit "en"))
                 (sent (run initialConfig [ChangeSourceText merhaba; ClickTranslate])))
    by (left; reflexivity).
  split; [exact R|]. split; [exact H|].
  exact (@sent_requests_valid _ _ _ _ R H).
Defined.

(** ** Responses that cross *)

Lemma nth_error_at0 {A : Type} (l r : list A) (x : A) :
  nth_error (l ++ x :: r) (List.length l) = Some x.
Proof. induction l; simpl; auto. Qed.

Lemma nth_error_at1 {A : Type} (l r : list A) (x y : A) :
  nth_error (l ++ x :: y :: r) (S (List.length l)) = Some y.
Proof. induction l; simpl; auto. Qed.

Lemma remove_nth_at0 {A : Type} (l r : list A) (x : A) :
  remove_nth (List.length l) (l ++ x :: r) = l ++ r.
Proof. induction l as [|a l IH]; simpl; [reflexivity | rewrite IH; reflexivity]. Qed.

Lemma remove_nth_at1 {A : Type} (l r : list A) (x y : A) :
  remove_nth (S (List.length l)) (l ++ x :: y :: r) = l ++ x :: r.
Proof.
  induction l as [|a l IH]; [reflexivity|].
  cbn [List.length app].
  change (a :: remove_nth (S (List.length l)) (l ++ x :: y :: r) = a :: l ++ x :: r).
  rewrite IH. reflexivity.
Qed.

Lemma ctrlEnter_submits :
  (ctrlKey ctrlEnter || metaKey ctrlEnter)
  && JsString.eqb (key ctrlEnter) (lit "Enter") = true.
Proof. vm_compute. reflexivity. Qed.

Ltac cells :=
  cbn [exec update send state inflight sent request_of resume
       setSourceText setTranslation setFromLang setToLang setLanguages
       setLoading setHistory setShowHistory setSelectedAlternative setError
       sourceText translation fromLang toLang languages loading history
       showHistory selectedAlternative error].

Ltac crunch :=
  repeat (progress (cells; unfold fetchHistory, fetchLanguages, clearHistory;
                    rewrite <- ?app_assoc; cbn [app];
                    rewrite ?nth_error_at1, ?remove_nth_at1,
                            ?nth_error_at0, ?remove_nth_at0)).

(** Two submissions in flight: the text is submitted, edited to [t2]
    and submitted again by Ctrl+Enter.  When the answer to the second
    request arrives first, it is stored and lowers the loading flag
    although the first request is still in flight; when the answer to
    the first request then arrives it replaces the newer one, so the
    translation on display is not the one of the text in the box. *)
Theorem late_response_overwrites (c : Config) (t2 : jsstring)
        (d1 d2 : TranslationData) :
  valid (state c) ->
  ~ blank t2 ->
  (JsString.length t2 <= 5000)%Z ->
  let n := List.length (inflight c) in
  let c1 := exec (handleTranslate (state c)) c in
  let c2 := step (step c1 (ChangeSourceText t2)) (KeyDown ctrlEnter) in
  let c3 := step c2 (Settle (S n) (TranslateResponse (TranslateOk (JsonValue d2)))) in
  let c4 := step c3 (Settle n (TranslateResponse (TranslateOk (JsonValue d1)))) in
  sent c2 = sent c ++ [ POST_translate (sourceText (state c)) (fromLang (state c))
                                       (toLang (state c));
                        POST_translate t2 (fromLang (state c)) (toLang (state c)) ]
  /\ translation (state c3) = Some d2
  /\ loading (state c3) = false
  /\ translations_inflight c3 = S (translations_inflight c)
  /\ translation (state c4) = Some d1
  /\ selectedAlternative (state c4) = main_translation d1
  /\ sourceText (state c4) = t2
  /\ translations_inflight c4 = translations_inflight c.
Proof.
  intros H B2 L2. pose proof H as (_ & Hne & _).
  cbv zeta. submit_valid H.
  cbn [step handler]. unfold handleKeyPress. rewrite ctrlEnter_submits.
  cells. unfold handleTranslate. cells.
  rewrite (proj2 (not_trim_not_blank t2) B2), E0, (proj2 (Z.ltb_ge _ _) L2).
  cells.
  cbn [step]. unfold settle. crunch.
  unfold translations_inflight. cells.
  rewrite !filter_app, !length_app. cbn [filter is_translate List.length].
  repeat split; lia.
Qed.

Lemma not_blank_selam : ~ blank (lit "selam").
Proof. intros H. inversion H as [|? ? Hc Hr]. vm_compute in Hc. discriminate. Qed.

Lemma late_response_overwrites_witness :
  let c := update (setSourceText merhaba) initialConfig in
  let c1 := exec (handleTranslate (state c)) c in
  let c2 := step (step c1 (ChangeSourceText (lit "selam"))) (KeyDown ctrlEnter) in
  let c3 := step c2 (Settle 1 (TranslateResponse (TranslateOk (JsonValue selam)))) in
  let c4 := step c3 (Settle 0 (TranslateResponse (TranslateOk (JsonValue hello)))) in
  valid (state c)
  /\ ~ blank (lit "selam")
  /\ (JsString.length (lit "selam") <= 5000)%Z
  /\ translation (state c3) = Some selam
  /\ loading (state c3) = false
  /\ translations_inflight c3 = 1%nat
  /\ translation (state c4) = Some hello
  /\ sourceText (state c4) = lit "selam".
Proof.
  assert (L : (JsString.length (lit "selam") <= 5000)%Z) by (vm_compute; discriminate).
  pose proof (@late_response_overwrites (update (setSourceText merhaba) initialConfig)
                (lit "selam") hello selam valid_merhaba not_blank_selam L) as F.
  cbv zeta in F. destruct F as (_ & F3 & F4 & F5 & F6 & _ & F8 & _).
  cbv zeta. split; [exact valid_merhaba|]. split; [exact not_blank_selam|].
  split; [exact L|]. split; [exact F3|]. split; [exact F4|].
  split; [exact F5|]. split; [exact F6 | exact F8].
Defined.

(** A refresh of the history that is in flight when the user clears
    the history undoes the clear: once the DELETE call has resolved the
    list is empty, and when the older listing then arrives the list
    shows its records again. *)
Theorem stale_refresh_undoes_clear (c : Config) (l : list TranslationData)
        (ok ok' : bool) :
  let n := List.length (inflight c) in
  let c1 := exec fetchHistory c in
  let c2 := step c1 ClickClearHistory in
  let c3 := step c2 (Settle (S n) (DeleteResponse (DeleteResolves ok))) in
  let c4 := step c3 (Settle n (HistoryResponse
                                 (Resolves ok' (JsonValue {| translations := Some l |})))) in
  sent c2 = sent c ++ [GET_history; DELETE_history]
  /\ history (state c3) = []
  /\ history (state c4) = l
  /\ inflight c4 = inflight c.
Proof.
  cbv zeta. cbn [step handler]. unfold settle. crunch.
  rewrite app_nil_r. repeat split.
Qed.

(** ** Start-up *)

(** The mount effect sends the two listing calls, languages first, and
    writes no cell.  Whatever the two calls answer and in whichever
    order the answers arrive, the resulting state is the same, and
    both calls have left the calls in flight. *)
Theorem mount_responses_commute (c : Config)
        (rl : FetchResult LanguagesBody) (rh : FetchResult HistoryBody) :
  let n := List.length (inflight c) in
  let c1 := step c Mount in
  let a := run c1 [Settle n (LanguagesResponse rl); Settle n (HistoryResponse rh)] in
  let b := run c1 [Settle (S n) (HistoryResponse rh); Settle n (LanguagesResponse rl)] in
  sent c1 = sent c ++ [GET_languages; GET_history]
  /\ state c1 = state c
  /\ state a = state b
  /\ inflight a = inflight c
  /\ inflight b = inflight c.
Proof.
  cbv zeta. cbn [run fold_left step handler]. unfold settle. crunch.
  destruct rl as [ml | okl [ml | bl]], rh as [mh | okh [mh | bh]];
    crunch; rewrite ?app_nil_r; repeat split.
Qed.

(** A refresh of the history never shows an error and never touches
    the translation: when the call or its body is rejected the state is
    the one of before; when a body arrives, whatever the status of the
    response, the list becomes its [translations], or the empty list
    when the body has none. *)
Theorem history_refresh_outcomes (c : Config) :
  let n := List.length (inflight c) in
  let c1 := exec fetchHistory c in
  state c1 = state c
  /\ (forall m, state (step c1 (Settle n (HistoryResponse (Rejects m)))) = state c)
  /\ (forall ok m,
         state (step c1 (Settle n (HistoryResponse (Resolves ok (JsonRejects m)))))
         = state c)
  /\ (forall ok l,
         state (step c1 (Settle n (HistoryResponse
                  (Resolves ok (JsonValue {| translations := Some l |})))))
         = setHistory l (state c))
  /\ (forall ok,
         state (step c1 (Settle n (HistoryResponse
                  (Resolves ok (JsonValue {| translations := None |})))))
         = setHistory [] (state c)).
Proof.
  cbv zeta. cbn [step]. unfold settle. crunch.
  repeat split; intros; crunch; reflexivity.
Qed.

(** A failed listing of the languages shows its message and leaves the
    languages as they were; it does not disable the translate button,
    and the next submission that passes validation clears the message
    and sends its request. *)
Theorem languages_failure_does_not_block (c : Config)
        (r : FetchResult LanguagesBody) :
  (forall ok body, r <> Resolves ok (JsonValue body)) ->
  let n := List.length (inflight c) in
  let c1 := exec fetchLanguages c in
  let c2 := step c1 (Settle n (LanguagesResponse r)) in
  error (state c2) = msg_languages_failed
  /\ languages (state c2) = languages (state c)
  /\ translateButton_disabled (state c2) = translateButton_disabled (state c)
  /\ (valid (state c) ->
      let c3 := exec (handleTranslate (state c2)) c2 in
      error (state c3) = []
      /\ translations_inflight c3 = S (translations_inflight c)).
Proof.
  intros F. cbv zeta. cbn [step]. unfold settle.
  destruct r as [m | ok [m | body]];
    [ | | exfalso; exact (F ok body eq_refl)];
    crunch; rewrite ?app_nil_r;
    (do 3 (split; [reflexivity|]);
     intros H; destruct (handleTranslate_valid H) as (E1 & E2 & E3);
     unfold handleTranslate; cells; rewrite E1, E2, E3; cells;
     split; [reflexivity|];
     rewrite translations_inflight_send; cbn [is_translate];
     unfold translations_inflight; cells; lia).
Qed.

Lemma languages_failure_does_not_block_witness :
  let c := update (setSourceText merhaba) initialConfig in
  let c1 := exec fetchLanguages c in
  let c2 := step c1 (Settle 0 (LanguagesResponse (Rejects failedToFetch))) in
  let c3 := exec (handleTranslate (state c2)) c2 in
  (forall ok (body : LanguagesBody),
      Rejects failedToFetch <> Resolves ok (JsonValue body))
  /\ valid (state c)
  /\ error (state c2) = msg_languages_failed
  /\ error (state c3) = []
  /\ translations_inflight c3 = 1%nat.
Proof.
  assert (F : forall ok (body : LanguagesBody),
             Rejects failedToFetch <> Resolves ok (JsonValue body))
    by (intros ok body; discriminate).
  pose proof (@languages_failure_does_not_block
                (update (setSourceText merhaba) initialConfig)
                (Rejects failedToFetch) F) as G.
  cbv zeta in G. destruct G as (G1 & _ & _ & G4).
  destruct (G4 valid_merhaba) as (G5 & G6).
  cbv zeta. split; [exact F|]. split; [exact valid_merhaba|].
  split; [exact G1|]. split; [exact G5 | exact G6].
Defined.

(** ** The keyboard and the button *)



(** With a blank text the button and the keyboard differ: the button
    is disabled and a click changes nothing, while Ctrl+Enter shows the
    empty-text message; neither sends a request. *)
Theorem blank_text_button_and_key (c : Config) :
  blank (sourceText (state c)) ->
  step c ClickTranslate = c
  /\ state (step c (KeyDown ctrlEnter)) = setError msg_empty_text (state c)
  /\ sent (step c (KeyDown ctrlEnter)) = sent c
  /\ inflight (step c (KeyDown ctrlEnter)) = inflight c.
Proof.
  intros B. apply not_trim_blank in B. split.
  - cbn [step handler]. unfold translateButton_disabled. rewrite B, orb_true_r.
    reflexivity.
  - cbn [step handler]. unfold handleKeyPress. rewrite ctrlEnter_submits.
    unfold handleTranslate. rewrite B. cells. repeat split.
Qed.

Lemma blank_text_button_and_key_witness :
  let c := run afterHello [ChangeSourceText (lit "   ")] in
  blank (sourceText (state c))
  /\ step c ClickTranslate = c
  /\ error (state (step c (KeyDown ctrlEnter))) = msg_empty_text
  /\ sent (step c (KeyDown ctrlEnter)) = sent c.
Proof.
  cbv zeta.
  pose proof (@blank_text_button_and_key
                (run afterHello [ChangeSourceText (lit "   ")]) blank_spaces)
    as (F1 & F2 & F3 & _).
  split; [exact blank_spaces|]. split; [exact F1|].
  split; [rewrite F2; reflexivity | exact F3].
Defined.

Lemma messages_distinct :
  msg_same_language <> msg_empty_text
  /\ msg_too_long <> msg_empty_text
  /\ [] <> msg_empty_text.
Proof. repeat split; vm_compute; discriminate. Qed.

(** A click on the translate button never produces the empty-text
    message: the button is disabled exactly when that check would
    fail, so after a click the message is there only if it was there
    before. *)
Theorem button_never_reports_empty_text (c : Config) :
  error (state c) <> msg_empty_text ->
  error (state (step c ClickTranslate)) <> msg_empty_text.
Proof.
  intros H. destruct messages_distinct as (M1 & M2 & M3).
  cbn [step handler]. unfold translateButton_disabled, handleTranslate.
  destruct (loading (state c)); [exact H|]. cbn [orb].
  destruct (negb (truthy (trim (sourceText (state c))))); [exact H|].
  destruct (JsString.eqb (fromLang (state c)) (toLang (state c))); [exact M1|].
  destruct (5000 <? JsString.length (sourceText (state c)))%Z; [exact M2|].
  cells. exact M3.
Qed.

Lemma button_never_reports_empty_text_witness :
  error (state initialConfig) <> msg_empty_text
  /\ error (state (step initialConfig ClickTranslate)) <> msg_empty_text.
Proof.
  assert (H : error (state initialConfig) <> msg_empty_text)
    by (vm_compute; discriminate).
  split; [exact H | exact (button_never_reports_empty_text initialConfig H)].
Defined.

(** The validation checks run in a fixed order and the first failure
    decides the message: a blank text gives the empty-text message even
    when the languages are equal or the text is too long; equal
    languages give their message even when the text is too long. *)
Theorem validation_order (c : Config) :
  let e' := error (state (exec (handleTranslate (state c)) c)) in
  let s := state c in
  (blank (sourceText s) -> e' = msg_empty_text)
  /\ (~ blank (sourceText s) -> fromLang s = toLang s -> e' = msg_same_language)
  /\ (~ blank (sourceText s) -> fromLang s <> toLang s ->
      (5000 < JsString.length (sourceText s))%Z -> e' = msg_too_long).
Proof.
  cbv zeta. unfold handleTranslate. split; [|split].
  - intros B. apply not_trim_blank in B. rewrite B. reflexivity.
  - intros B E. apply not_trim_not_blank in B. apply eqb_eq in E.
    rewrite B, E. reflexivity.
  - intros B E L. apply not_trim_not_blank in B. apply eqb_neq in E.
    apply Z.ltb_lt in L. rewrite B, E, L. reflexivity.
Qed.

Lemma blank_many_spaces : blank (N.iter 5001 (cons 32%N) []).
Proof.
  unfold blank. apply Forall_forall. intros x Hx.
  assert (G : forallb isWhiteSpace (N.iter 5001 (cons 32%N) []) = true)
    by (vm_compute; reflexivity).
  rewrite forallb_forall in G. apply G. exact Hx.
Qed.

Lemma validation_order_witness :
  let c := run initialConfig
             [ChangeSourceText (N.iter 5001 (cons 32%N) []); ChangeToLang (lit "tr")] in
  blank (sourceText (state c))
  /\ fromLang (state c) = toLang (state c)
  /\ (5000 < JsString.length (sourceText (state c)))%Z
  /\ error (state (exec (handleTranslate (state c)) c)) = msg_empty_text.
Proof.
  cbv zeta.
  pose proof (validation_order
                (run initialConfig
                   [ChangeSourceText (N.iter 5001 (cons 32%N) []);
                    ChangeToLang (lit "tr")])) as F.
  cbv zeta in F. destruct F as (F1 & _).
  split; [exact blank_many_spaces|]. split; [reflexivity|].
  split; [vm_compute; reflexivity|].
  apply F1. exact blank_many_spaces.
Defined.

(** ** The course of a submission *)

(** A submission that passes validation sends the text as it stands in
    the box, untrimmed, with the two language codes; before the answer
    arrives the spinner shows, the error banner and the panel of
    alternatives are gone, and the selected output is kept under the
    spinner. *)
Theorem valid_submit_starts (c : Config) :
  valid (state c) ->
  let s := state c in
  let c1 := exec (handleTranslate s) c in
  sent c1 = sent c ++ [POST_translate (sourceText s) (fromLang s) (toLang s)]
  /\ outputPane (state c1) = Spinner
  /\ errorBanner (state c1) = None
  /\ alternativesPanel (state c1) = None
  /\ selectedAlternative (state c1) = selectedAlternative s
  /\ sourceText (state c1) = sourceText s
  /\ translateButton_disabled (state c1) = true
  /\ phase (state c1) = Loading.
Proof.
  intros H. cbv zeta. submit_valid H. cells. repeat split.
Qed.

Lemma valid_padded :
  valid (state (update (setSourceText paddedMerhaba) initialConfig)).
Proof.
  unfold valid. cells. repeat split.
  - intros H. apply trim_nil in H. vm_compute in H. discriminate.
  - intros H. vm_compute in H. discriminate.
  - vm_compute. discriminate.
Qed.

Lemma valid_submit_starts_witness :
  let c := update (setSourceText paddedMerhaba) initialConfig in
  let c1 := exec (handleTranslate (state c)) c in
  valid (state c)
  /\ trim paddedMerhaba <> paddedMerhaba
  /\ sent c1 = [POST_translate paddedMerhaba (lit "tr") (lit "en")]
  /\ outputPane (state c1) = Spinner.
Proof.
  cbv zeta.
  pose proof (@valid_submit_starts
                (update (setSourceText paddedMerhaba) initialConfig) valid_padded) as F.
  cbv zeta in F.
  destruct F as (F1 & F2 & _).
  split; [exact valid_padded|]. split; [vm_compute; discriminate|].
  split; [exact F1 | exact F2].
Defined.

(** The history is listed again after a successful translation and
    only then: a successful answer leaves one [GET /api/history] call
    in flight behind the translation request, any other answer leaves
    the calls in flight as they were before the submission. *)
Theorem history_refreshed_on_success_only (c : Config) (r : TranslateResult) :
  valid (state c) ->
  let s := state c in
  let post := POST_translate (sourceText s) (fromLang s) (toLang s) in
  let c1 := exec (handleTranslate s) c in
  let c2 := step c1 (Settle (List.length (inflight c)) (TranslateResponse r)) in
  (forall data, r = TranslateOk (JsonValue data) ->
     sent c2 = sent c ++ [post; GET_history]
     /\ map request_of (inflight c2) = map request_of (inflight c) ++ [GET_history])
  /\ ((forall data, r <> TranslateOk (JsonValue data)) ->
      sent c2 = sent c ++ [post] /\ inflight c2 = inflight c).
Proof.
  intros H. cbv zeta. submit_valid H. cbn [step]. unfold settle. crunch.
  rewrite ?app_nil_r. split.
  - intros data ->. crunch. split; [reflexivity|].
    rewrite map_app. reflexivity.
  - intros F. destruct r as [m | [m | [d]] | [m | data]]; crunch;
      try (split; reflexivity).
    exfalso. exact (F data eq_refl).
Qed.

Lemma history_refreshed_on_success_only_witness :
  let c := update (setSourceText merhaba) initialConfig in
  let c1 := exec (handleTranslate (state c)) c in
  let ok := step c1 (Settle 0 (TranslateResponse (TranslateOk (JsonValue hello)))) in
  let ko := step c1 (Settle 0 (TranslateResponse (TranslateRejects failedToFetch))) in
  valid (state c)
  /\ map request_of (inflight ok) = [GET_history]
  /\ (forall data, TranslateRejects failedToFetch <> TranslateOk (JsonValue data))
  /\ inflight ko = [].
Proof.
  cbv zeta.
  pose proof (@history_refreshed_on_success_only
                (update (setSourceText merhaba) initialConfig)
                (TranslateOk (JsonValue hello)) valid_merhaba) as F.
  pose proof (@history_refreshed_on_success_only
                (update (setSourceText merhaba) initialConfig)
                (TranslateRejects failedToFetch) valid_merhaba) as G.
  cbv zeta in F, G. destruct F as [F _]. destruct G as [_ G].
  assert (N : forall data, TranslateRejects failedToFetch <> TranslateOk (JsonValue data))
    by (intros data; discriminate).
  split; [exact valid_merhaba|].
  split; [exact (proj2 (F hello eq_refl))|].
  split; [exact N | exact (proj2 (G N))].
Defined.

(** After a failed submission the output pane still shows the output
    that was selected before, next to the error banner, while the
    panel of alternatives is gone: the text on display has no stored
    translation behind it. *)
Theorem stale_output_after_failure (c : Config) (r : TranslateResult) (m : jsstring) :
  valid (state c) ->
  remote_failure r m ->
  m <> [] ->
  selectedAlternative (state c) <> [] ->
  let c1 := exec (handleTranslate (state c)) c in
  let c2 := step c1 (Settle (List.length (inflight c)) (TranslateResponse r)) in
  outputPane (state c2) = Output (selectedAlternative (state c))
  /\ errorBanner (state c2) = Some m
  /\ alternativesPanel (state c2) = None
  /\ translateButton_disabled (state c2) = false.
Proof.
  intros H F M S0. pose proof H as (NB & _).
  cbv zeta. submit_valid H. cbn [step]. unfold settle. crunch.
  assert (P : forall s : State,
             loading s = false -> translation s = None -> error s = m ->
             selectedAlternative s = selectedAlternative (state c) ->
             sourceText s = sourceText (state c) ->
             outputPane s = Output (selectedAlternative (state c))
             /\ errorBanner s = Some m
             /\ alternativesPanel s = None
             /\ translateButton_disabled s = false).
  { intros s Hl Ht He Hs Hx.
    unfold outputPane, errorBanner, alternativesPanel, translateButton_disabled.
    rewrite Hl, Ht, He, Hs, Hx, E. cbn [orb].
    destruct (selectedAlternative (state c)); [congruence|].
    destruct m; [congruence|]. repeat split. }
  destruct r as [m' | [m' | [d]] | [m' | data]]; crunch.
  - inversion F; subst. apply P; reflexivity.
  - inversion F; subst. apply P; reflexivity.
  - apply P; try reflexivity. cells. apply (detail_message F).
  - inversion F; subst. apply P; reflexivity.
  - inversion F.
Qed.

Lemma stale_output_after_failure_witness :
  let c := afterHello in
  let c1 := exec (handleTranslate (state c)) c in
  let c2 := step c1 (Settle 1 (TranslateResponse (TranslateRejects failedToFetch))) in
  valid (state c)
  /\ remote_failure (TranslateRejects failedToFetch) failedToFetch
  /\ failedToFetch <> []
  /\ selectedAlternative (state c) <> []
  /\ outputPane (state c2) = Output (lit "hello")
  /\ errorBanner (state c2) = Some failedToFetch
  /\ alternativesPanel (state c2) = None.
Proof.
  cbv zeta.
  assert (S0 : selectedAlternative (state afterHello) <> [])
    by (vm_compute; discriminate).
  pose proof (@stale_output_after_failure afterHello _ _ valid_afterHello
                (failure_transport failedToFetch) failedToFetch_not_empty S0) as F.
  cbv zeta in F. destruct F as (F1 & F2 & F3 & _).
  split; [exact valid_afterHello|]. split; [constructor|].
  split; [exact failedToFetch_not_empty|]. split; [exact S0|].
  split; [exact F1|]. split; [exact F2 | exact F3].
Defined.

(** ** Compositions *)

(** Translating back: with a translation stored and nothing loading,
    a swap followed by a click on the button sends the output that was
    selected, with the language codes exchanged, provided that output
    passes validation. *)
Theorem swap_then_submit (c : Config) (d : TranslationData) :
  let s := state c in
  translation s = Some d ->
  loading s = false ->
  ~ blank (selectedAlternative s) ->
  (JsString.length (selectedAlternative s) <= 5000)%Z ->
  fromLang s <> toLang s ->
  let c2 := run c [ClickSwap; ClickTranslate] in
  sent c2 = sent c ++ [POST_translate (selectedAlternative s) (toLang s) (fromLang s)]
  /\ sourceText (state c2) = selectedAlternative s
  /\ loading (state c2) = true
  /\ selectedAlternative (state c2) = [].
Proof.
  cbv zeta. intros T L B Len Ne.
  cbn [run fold_left step handler]. unfold swapLanguages. rewrite T. cells.
  unfold translateButton_disabled. cells. rewrite L.
  rewrite (proj2 (not_trim_not_blank _) B). cbn [orb].
  unfold handleTranslate. cells.
  rewrite (proj2 (not_trim_not_blank _) B).
  assert (Ne' : toLang (state c) <> fromLang (state c)) by congruence.
  rewrite (proj2 (eqb_neq _ _) Ne'), (proj2 (Z.ltb_ge _ _) Len). cells.
  repeat split.
Qed.

Lemma swap_then_submit_witness :
  let c := afterHello in
  let c2 := run c [ClickSwap; ClickTranslate] in
  translation (state c) = Some hello
  /\ loading (state c) = false
  /\ ~ blank (selectedAlternative (state c))
  /\ (JsString.length (selectedAlternative (state c)) <= 5000)%Z
  /\ fromLang (state c) <> toLang (state c)
  /\ sent c2 = sent c ++ [POST_translate (lit "hello") (lit "en") (lit "tr")].
Proof.
  cbv zeta.
  assert (B : ~ blank (selectedAlternative (state afterHello))).
  { intros H. inversion H as [|? ? Hc Hr]. vm_compute in Hc. discriminate. }
  assert (L : (JsString.length (selectedAlternative (state afterHello)) <= 5000)%Z)
    by (vm_compute; discriminate).
  assert (Ne : fromLang (state afterHello) <> toLang (state afterHello))
    by (vm_compute; discriminate).
  pose proof (@swap_then_submit afterHello hello eq_refl eq_refl B L Ne) as F.
  cbv zeta in F. destruct F as (F1 & _).
  split; [reflexivity|]. split; [reflexivity|]. split; [exact B|].
  split; [exact L|]. split; [exact Ne | exact F1].
Defined.

(** Edits, swaps, selections and earlier loads leave the loading flag,
    the error message, the history and the languages alone. *)
Lemma edits_keep_rest (es : list Event) :
  forall c : Config,
    forallb is_edit es = true ->
    loading (state (run c es)) = loading (state c)
    /\ error (state (run c es)) = error (state c)
    /\ history (state (run c es)) = history (state c)
    /\ languages (state (run c es)) = languages (state c)
    /\ inflight (run c es) = inflight c
    /\ sent (run c es) = sent c.
Proof.
  induction es as [|e es IH]; intros c H; [repeat split|].
  cbn [forallb] in H. apply andb_true_iff in H as [He Hes].
  cbn [run fold_left]. fold (run (step c e) es).
  destruct (IH (step c e) Hes) as (I1 & I2 & I3 & I4 & I5 & I6).
  rewrite I1, I2, I3, I4, I5, I6.
  destruct e; try discriminate; cbn [step handler]; cells;
    try (repeat split; fail).
  unfold swapLanguages. destruct (translation (state c)); cells; repeat split.
Qed.

(** Loading a history record wipes out whatever was edited before it:
    after any sequence of edits, swaps, selections, panel toggles and
    earlier loads, the state that the load of a record leaves is the
    state it would leave without them, and nothing was sent. *)
Theorem loadHistoryItem_absorbs_edits (c : Config) (es : list Event)
        (item : TranslationData) :
  forallb is_edit es = true ->
  state (step (run c es) (ClickHistoryItem item)) = state (step c (ClickHistoryItem item))
  /\ sent (step (run c es) (ClickHistoryItem item)) = sent c.
Proof.
  intros H. destruct (edits_keep_rest es c H) as (I1 & I2 & I3 & I4 & _ & I6).
  cbn [step handler]. unfold loadHistoryItem. cells.
  unfold setShowHistory, setSelectedAlternative, setTranslation, setToLang,
    setFromLang, setSourceText. cells. rewrite I1, I2, I3, I4, I6.
  split; reflexivity.
Qed.

Lemma loadHistoryItem_absorbs_edits_witness :
  let es := [ChangeSourceText (lit "selam"); ClickSwap; ClickAlternative (lit "hi");
             ClickHistoryItem selam; ChangeToLang (lit "de")] in
  forallb is_edit es = true
  /\ state (step (run afterHello es) (ClickHistoryItem hello))
     = state (step afterHello (ClickHistoryItem hello)).
Proof.
  cbv zeta. split; [reflexivity|].
  apply (@loadHistoryItem_absorbs_edits afterHello
           [ChangeSourceText (lit "selam"); ClickSwap; ClickAlternative (lit "hi");
            ClickHistoryItem selam; ChangeToLang (lit "de")] hello).
  reflexivity.
Defined.

(** ** The history rows *)

Lemma length_dots : List.length (lit "...") = 3%nat.
Proof. vm_compute. reflexivity. Qed.

(** The preview of a text in a history row has at most 103 code units.
    A text of at most 100 code units is shown whole; a longer one is
    cut to its first 100 code units followed by three dots. *)
Theorem historyPreview_bounds (t : jsstring) :
  (JsString.length (historyPreview t) <= 103)%Z
  /\ firstn 100 (historyPreview t) = firstn 100 t
  /\ ((JsString.length t <= 100)%Z -> historyPreview t = t)
  /\ ((100 < JsString.length t)%Z ->
      JsString.length (historyPreview t) = 103%Z
      /\ historyPreview t = firstn 100 t ++ lit "...").
Proof.
  unfold historyPreview, JsString.length.
  destruct (100 <? Z.of_nat (List.length t))%Z eqn:E.
  - apply Z.ltb_lt in E.
    assert (L : List.length (firstn 100 t) = 100%nat)
      by (rewrite length_firstn; lia).
    repeat split.
    + rewrite length_app, L, length_dots. lia.
    + rewrite firstn_app, L. replace (100 - 100)%nat with 0%nat by lia.
      rewrite firstn_firstn. cbn [firstn]. rewrite app_nil_r. reflexivity.
    + lia.
    + rewrite length_app, L, length_dots. lia.
  - apply Z.ltb_ge in E. repeat split; lia.
Qed.

Lemma historyPreview_bounds_witness :
  (JsString.length (letters 250) <= 100 -> historyPreview (letters 250) = letters 250)%Z
  /\ (100 < JsString.length (letters 250))%Z
  /\ JsString.length (historyPreview (letters 250)) = 103%Z
  /\ (JsString.length merhaba <= 100)%Z
  /\ historyPreview merhaba = merhaba.
Proof.
  destruct (historyPreview_bounds (letters 250)) as (_ & _ & F3 & F4).
  destruct (historyPreview_bounds merhaba) as (_ & _ & G3 & _).
  assert (L : (100 < JsString.length (letters 250))%Z) by (vm_compute; reflexivity).
  assert (S0 : (JsString.length merhaba <= 100)%Z) by (vm_compute; discriminate).
  split; [exact F3|]. split; [exact L|]. split; [exact (proj1 (F4 L))|].
  split; [exact S0 | exact (G3 S0)].
Defined.
